(** * Consul Connect router and Connect metrics observer

    A shallow embedding of [pkg/router] (the Consul Connect router and the
    no-op router) and of [pkg/metrics/observers/connect.go], together with
    the properties of the traffic split, the resolver and the duration
    conversion that the design document states about them.

    Conventions of the embedding:
    - a Go [int]/[int64] is a [Z], with the 64-bit range written out where
      a conversion or a product can leave it;
    - a Go [float32]/[float64] is a [spec_float] of the Standard Library at
      precision 24/53, rounded to nearest even as the hardware does;
    - the Consul client and the logger are the only effects; they are one
      explicit state ([Consul.t]) threaded through a small state monad;
    - a Go [error] result is an [option error] ([None] is [nil]). *)

From Stdlib Require Import ZArith Bool Ascii String List Lia.
From Stdlib Require Import Floats.SpecFloat.
From stdpp Require Import base option list gmap strings.

Local Open Scope string_scope.
Local Open Scope list_scope.
Local Open Scope Z_scope.

(** The double quote character, for the Go literals that escape it. *)
Definition dq : string := String "034"%char EmptyString.

(** ** Numbers *)

(** Go's 64-bit [int] (the router is built for 64-bit targets). *)
Module Int64.
Definition min_int : Z := - 2 ^ 63.
Definition max_int : Z := 2 ^ 63 - 1.
Definition in_range (n : Z) : bool := (min_int <=? n) && (n <=? max_int).
(** Two's complement wrap-around of an arithmetic result. *)
Definition wrap (n : Z) : Z := (n + 2 ^ 63) mod 2 ^ 64 - 2 ^ 63.
End Int64.

(** IEEE 754 binary formats over [spec_float]. *)
Module IEEE.
Section Format.
Variables prec emax : Z.

(** Conversion of an integer, rounding to nearest even: Go's
    [float32(n)] / [float64(n)]. *)
Definition of_int (n : Z) : spec_float :=
  binary_normalize prec emax n 0 false.

(** The float nearest to the decimal constant [num / den]. *)
Definition of_ratio (num den : Z) : spec_float :=
  SFdiv prec emax (of_int num) (of_int den).
End Format.

(** [x > y]; false as soon as one side is a NaN. *)
Definition gt (x y : spec_float) : bool := SFltb y x.

(** The integer part of a finite float, the fraction discarded. *)
Definition trunc (x : spec_float) : option Z :=
  match x with
  | S754_zero _ => Some 0
  | S754_finite s m e => Some (cond_Zopp s (Z.shiftl (Z.pos m) e))
  | S754_infinity _ | S754_nan => None
  end.

(** Go's [int(x)] / [int64(x)]: truncation toward zero.  The language
    leaves the result open when the value does not fit; the embedding
    takes what amd64's CVTTSS2SQ/CVTTSD2SQ deliver there, the smallest
    int64. *)
Definition to_int (x : spec_float) : Z :=
  match trunc x with
  | Some k => if Int64.in_range k then k else Int64.min_int
  | None => Int64.min_int
  end.
End IEEE.

Module F32.
Definition t := spec_float.
Definition prec : Z := 24.
Definition emax : Z := 128.
Definition of_int : Z → t := IEEE.of_int prec emax.
Definition of_ratio : Z → Z → t := IEEE.of_ratio prec emax.
Definition gt : t → t → bool := IEEE.gt.
Definition to_int : t → Z := IEEE.to_int.
End F32.

Module F64.
Definition t := spec_float.
Definition prec : Z := 53.
Definition emax : Z := 1024.
Definition of_int : Z → t := IEEE.of_int prec emax.
Definition of_ratio : Z → Z → t := IEEE.of_ratio prec emax.
Definition to_int : t → Z := IEEE.to_int.
End F64.

Abbreviation float32 := F32.t.
Abbreviation float64 := F64.t.

(** ** The rollout target *)

(** Modelled from the spec: the [flaggerv1.Canary] descriptor and its
    [GetServiceNames] method are declared in [pkg/apis/flagger/v1beta1],
    which is not embedded here.  The design describes the rollout target
    as the record [{apexName, primaryName, canaryName, namespace}], and
    the router reads nothing else of it. *)
Record Canary := {
  apexName : string;
  primaryName : string;
  canaryName : string;
  Namespace : string
}.

Definition GetServiceNames (c : Canary) : string * string * string :=
  (apexName c, primaryName c, canaryName c).

(** ** The Consul API types the router builds and reads *)

Module consulapi.

Definition ServiceResolver : string := "service-resolver".
Definition ServiceSplitter : string := "service-splitter".

Module ServiceSplit.
Record t := { Weight : float32; Service : string; ServiceSubset : string }.
End ServiceSplit.

Module ServiceSplitterConfigEntry.
Record t := { Kind : string; Name : string; Splits : list ServiceSplit.t }.
End ServiceSplitterConfigEntry.

Module ServiceResolverSubset.
Record t := { Filter : string }.
End ServiceResolverSubset.

Module ServiceResolverFailover.
Record t := {
  Service : string;
  ServiceSubset : string;
  Datacenters : list string
}.
End ServiceResolverFailover.

(** A Go map that was never made ([nil]) reads as the empty map; both are
    [∅] here. *)
Module ServiceResolverConfigEntry.
Record t := {
  Kind : string;
  Name : string;
  DefaultSubset : string;
  Subsets : gmap string ServiceResolverSubset.t;
  Failover : gmap string ServiceResolverFailover.t
}.
End ServiceResolverConfigEntry.

(** The [ConfigEntry] interface with the two implementations the router
    uses; [Other] stands for every other implementation, on which the
    type assertion of [GetRoutes] fails. *)
Inductive ConfigEntry :=
| Resolver (r : ServiceResolverConfigEntry.t)
| Splitter (s : ServiceSplitterConfigEntry.t)
| Other (kind name : string).

Definition GetKind (e : ConfigEntry) : string :=
  match e with
  | Resolver r => ServiceResolverConfigEntry.Kind r
  | Splitter s => ServiceSplitterConfigEntry.Kind s
  | Other k _ => k
  end.

Definition GetName (e : ConfigEntry) : string :=
  match e with
  | Resolver r => ServiceResolverConfigEntry.Name r
  | Splitter s => ServiceSplitterConfigEntry.Name s
  | Other _ n => n
  end.

End consulapi.
Import consulapi.

(** ** Errors *)

(** What the client reports: the agent could not be reached or refused the
    request, or it holds no entry of that kind and name. *)
Inductive api_error :=
| Unavailable
| NoSuchEntry (kind name : string).

(** The errors the router returns, one constructor per [fmt.Errorf] of the
    source, wrapping the client's error where the format has a [%w]. *)
Inductive error :=
| NotAbleToSetSplitter (apex ns : string) (cause : api_error)
| ResolverCreationFailure (apex ns : string) (cause : api_error)
| NotAbleToCreateResolver (apex ns : string)
| SplitterNotFound (apex ns : string) (cause : api_error)
| BadSplitter (apex ns : string)
| NoRoutes (apex ns : string).

(** ** The Consul agent and the logger

    The agent is what the design takes it for: a store of configuration
    entries with an upsert and a get by kind and name, and a catalog of
    datacenters.  It keeps what it is given as it is given; whether it
    serves a call at all is its [behaviour], fixed per kind of call and
    arbitrary otherwise.  Every call and every warning is kept in a
    [journal], oldest first. *)

Module Consul.

(** The remote calls the router makes. *)
Inductive op :=
| Datacenters
| Set_ (kind : string)
| Get (kind : string).

(** How the agent answers a call: it serves it, it answers without
    doing it (a write acknowledged with [false], a read answered with
    an error status), or the call fails on the way. *)
Inductive answer := Served | Declined | Failed.

Inductive event :=
| Warnf (format : string)
| CatalogDatacenters
| ConfigSet (e : ConfigEntry)
| ConfigGet (kind name : string).

Record t := {
  entries : gmap (string * string) ConfigEntry;
  datacenters : list string;
  behaviour : op → answer;
  journal : list event
}.

Definition record (ev : event) (w : t) : t :=
  {| entries := entries w; datacenters := datacenters w;
     behaviour := behaviour w; journal := journal w ++ [ev] |}.

Definition store (e : ConfigEntry) (w : t) : t :=
  {| entries := <[(GetKind e, GetName e) := e]> (entries w);
     datacenters := datacenters w;
     behaviour := behaviour w; journal := journal w |}.

End Consul.

(** ** The state monad of the router's methods *)

Definition M (A : Type) : Type := Consul.t → A * Consul.t.

#[global] Instance M_ret : MRet M := λ A a w, (a, w).

#[global] Instance M_bind : MBind M :=
  λ A B k m w, let '(a, w') := m w in k a w'.

(** [cr.logger.Warnf] *)
Definition logger_Warnf (format : string) : M unit :=
  fun w => (tt, Consul.record (Consul.Warnf format) w).

(** [cr.consulClient.Catalog().Datacenters()] *)
Definition Catalog_Datacenters : M (list string * option api_error) :=
  fun w =>
    let w := Consul.record Consul.CatalogDatacenters w in
    match Consul.behaviour w Consul.Datacenters with
    | Consul.Served => ((Consul.datacenters w, None), w)
    | _ => (([], Some Unavailable), w)
    end.

(** [cr.consulClient.ConfigEntries().Set(entry, nil)]: an upsert that
    replaces the whole entry of that kind and name. *)
Definition ConfigEntries_Set (e : ConfigEntry) : M (bool * option api_error) :=
  fun w =>
    let w := Consul.record (Consul.ConfigSet e) w in
    match Consul.behaviour w (Consul.Set_ (GetKind e)) with
    | Consul.Served => ((true, None), Consul.store e w)
    | Consul.Declined => ((false, None), w)
    | Consul.Failed => ((false, Some Unavailable), w)
    end.

(** [cr.consulClient.ConfigEntries().Get(kind, name, nil)]: an entry that
    does not exist is an error of the client. *)
Definition ConfigEntries_Get (kind name : string) : M (api_error + ConfigEntry) :=
  fun w =>
    let w := Consul.record (Consul.ConfigGet kind name) w in
    match Consul.behaviour w (Consul.Get kind) with
    | Consul.Served =>
        match Consul.entries w !! (kind, name) with
        | Some e => (inr e, w)
        | None => (inl (NoSuchEntry kind name), w)
        end
    | _ => (inl Unavailable, w)
    end.

(** ** The Consul Connect router (pkg/router/consul_connect.go) *)

(** The untyped constant [0.001] at type float32. *)
Definition epsilon : float32 := F32.of_ratio 1 1000.

Definition updateSplitter (canary : Canary)
    (primaryWeight secondaryWeight : float32) : M (option error) :=
  let '(apexName, _, _) := GetServiceNames canary in
  let splits : list ServiceSplit.t := [] in
  let splits :=
    if F32.gt primaryWeight epsilon then
      splits ++ [ {| ServiceSplit.Weight := primaryWeight;
                     ServiceSplit.Service := apexName;
                     ServiceSplit.ServiceSubset := "primary" |} ]
    else splits in
  let splits :=
    if F32.gt secondaryWeight epsilon then
      splits ++ [ {| ServiceSplit.Weight := secondaryWeight;
                     ServiceSplit.Service := apexName;
                     ServiceSplit.ServiceSubset := "canary" |} ]
    else splits in
  let splitter :=
    {| ServiceSplitterConfigEntry.Kind := ServiceSplitter;
       ServiceSplitterConfigEntry.Name := apexName;
       ServiceSplitterConfigEntry.Splits := splits |} in
  '(_, err) ← ConfigEntries_Set (Splitter splitter);
  match err with
  | Some err => mret (Some (NotAbleToSetSplitter apexName (Namespace canary) err))
  | None => mret None
  end.

(** The two filter expressions of the resolver's subsets. *)
Definition primaryFilter (primaryName : string) : string :=
  "Service.ID matches " +:+ dq +:+ primaryName +:+ "-.+" +:+ dq.

Definition canaryFilter (primaryName : string) : string :=
  "Service.ID not matches " +:+ dq +:+ primaryName +:+ "-.+" +:+ dq.

Definition reconcileResolver (canary : Canary) : M (option error) :=
  let '(apexName, primaryName, _) := GetServiceNames canary in
  '(dcs, err) ← Catalog_Datacenters;
  dcs ← match err with
        | Some _ => _ ← logger_Warnf "Failed to fetch dc list %v"; mret []
        | None => mret dcs
        end;
  let dcs := if (1 <=? length dcs)%nat then drop 1 dcs else dcs in
  (* [resolver.Failover] stays nil unless some datacenter is left *)
  let failover : gmap string ServiceResolverFailover.t :=
    if (0 <? length dcs)%nat then
      <["canary" := {| ServiceResolverFailover.Service := apexName;
                       ServiceResolverFailover.ServiceSubset := "canary";
                       ServiceResolverFailover.Datacenters := dcs |}]>
        (<["primary" := {| ServiceResolverFailover.Service := apexName;
                           ServiceResolverFailover.ServiceSubset := "primary";
                           ServiceResolverFailover.Datacenters := dcs |}]> ∅)
    else ∅ in
  let resolver :=
    {| ServiceResolverConfigEntry.Kind := ServiceResolver;
       ServiceResolverConfigEntry.Name := apexName;
       ServiceResolverConfigEntry.DefaultSubset := "primary";
       ServiceResolverConfigEntry.Subsets :=
         {[ "primary" := {| ServiceResolverSubset.Filter := primaryFilter primaryName |};
            "canary" := {| ServiceResolverSubset.Filter := canaryFilter primaryName |} ]};
       ServiceResolverConfigEntry.Failover := failover |} in
  '(result, err) ← ConfigEntries_Set (Resolver resolver);
  match err with
  | Some err => mret (Some (ResolverCreationFailure apexName (Namespace canary) err))
  | None =>
      if negb result then mret (Some (NotAbleToCreateResolver apexName (Namespace canary)))
      else mret None
  end.

Definition reconcileSplitter (canary : Canary) : M (option error) :=
  let '(apexName, _, _) := GetServiceNames canary in
  r ← ConfigEntries_Get ServiceSplitter apexName;
  match r with
  | inl _ =>
      err ← updateSplitter canary (F32.of_int 100) (F32.of_int 0);
      match err with
      | Some err => mret (Some err)
      | None => mret None
      end
  | inr _ => mret None
  end.

(** [Reconcile] creates or updates the Consul Connect resolver. *)
Definition Reconcile (canary : Canary) : M (option error) :=
  err ← reconcileResolver canary;
  match err with
  | Some err => mret (Some err)
  | None =>
      err ← reconcileSplitter canary;
      match err with
      | Some err => mret (Some err)
      | None => mret None
      end
  end.

(** One turn of the loop of [GetRoutes] over the splits read. *)
Definition scanSplit (acc : Z * Z) (split : ServiceSplit.t) : Z * Z :=
  let '(primaryWeight, canaryWeight) := acc in
  let primaryWeight :=
    if String.eqb (ServiceSplit.ServiceSubset split) "primary"
    then F32.to_int (ServiceSplit.Weight split) else primaryWeight in
  let canaryWeight :=
    if String.eqb (ServiceSplit.ServiceSubset split) "canary"
    then F32.to_int (ServiceSplit.Weight split) else canaryWeight in
  (primaryWeight, canaryWeight).

(** The loop of [GetRoutes], from the zero values of its named results. *)
Definition scanSplits (splits : list ServiceSplit.t) : Z * Z :=
  fold_left scanSplit splits (0, 0).

(** The four named results of [GetRoutes]; Go returns all of them on
    every path, the zero values where nothing was assigned. *)
Record Routes := {
  primaryWeight : Z;
  canaryWeight : Z;
  mirrored : bool;
  err : option error
}.

(** [GetRoutes] returns the destinations weight for primary and canary. *)
Definition GetRoutes (canary : Canary) : M Routes :=
  let '(apexName, _, _) := GetServiceNames canary in
  r ← ConfigEntries_Get ServiceSplitter apexName;
  match r with
  | inl e =>
      mret {| primaryWeight := 0; canaryWeight := 0; mirrored := false;
              err := Some (SplitterNotFound apexName (Namespace canary) e) |}
  | inr (Splitter readSplitter) =>
      let '(pw, cw) :=
        scanSplits (ServiceSplitterConfigEntry.Splits readSplitter) in
      mret {| primaryWeight := pw; canaryWeight := cw; mirrored := false;
              err := if (pw =? 0) && (cw =? 0)
                     then Some (NoRoutes apexName (Namespace canary))
                     else None |}
  | inr _ =>
      mret {| primaryWeight := 0; canaryWeight := 0; mirrored := false;
              err := Some (BadSplitter apexName (Namespace canary)) |}
  end.

(** [SetRoutes] updates the destinations weight for primary and canary. *)
Definition SetRoutes (canary : Canary) (primaryWeight canaryWeight : Z)
    (mirrored : bool) : M (option error) :=
  updateSplitter canary (F32.of_int primaryWeight) (F32.of_int canaryWeight).

(** ** The no-op router (pkg/router/kubernetes_noop.go) *)

(** [KubernetesNoopRouter] manages nothing: its two methods return [nil]
    and call no one. *)
Module KubernetesNoopRouter.
Definition Initialize (canary : Canary) : option error := None.
Definition Reconcile (canary : Canary) : option error := None.
End KubernetesNoopRouter.

(** ** Consul's subset filters

    The two filters that [reconcileResolver] writes are expressions of
    Consul's filter language, evaluated by the agent.  Their reading is
    written out for the two forms the router produces: [Service.ID matches
    RE] holds when the regular expression occurs somewhere in the service
    identifier (Go's [regexp.MatchString] is a search, it does not anchor),
    [Service.ID not matches RE] is its negation.  Regular expressions are
    read in the fragment the router generates: literal characters, [.] and
    the postfix [+]. *)

Module bexpr.

Inductive atom := Lit (c : ascii) | AnyChar.
Inductive item := One (a : atom) | Many (a : atom).

Definition is_meta (c : ascii) : bool :=
  existsb (Ascii.eqb c)
    ["092"; "."; "+"; "*"; "?"; "("; ")"; "|"; "["; "]"; "{"; "}"; "^"; "$"]%char.

Definition parse_atom (c : ascii) : option atom :=
  if Ascii.eqb c "." then Some AnyChar
  else if is_meta c then None
  else Some (Lit c).

Fixpoint parse (re : string) : option (list item) :=
  match re with
  | EmptyString => Some []
  | String c re' =>
      a ← parse_atom c;
      match re' with
      | String "+" re'' => rest ← parse re''; Some (Many a :: rest)
      | _ => rest ← parse re'; Some (One a :: rest)
      end
  end.

(** [.] matches every character but a line feed. *)
Definition atom_matches (a : atom) (c : ascii) : bool :=
  match a with
  | Lit c' => Ascii.eqb c c'
  | AnyChar => negb (Ascii.eqb c "010")
  end.

(** [re] matches a prefix of [s]. *)
Fixpoint match_here (re : list item) : string → bool :=
  match re with
  | [] => λ _, true
  | One a :: re' => λ s,
      match s with
      | EmptyString => false
      | String c s' => atom_matches a c && match_here re' s'
      end
  | Many a :: re' =>
      fix many (s : string) : bool :=
        match s with
        | EmptyString => false
        | String c s' => atom_matches a c && (match_here re' s' || many s')
        end
  end.

(** [re] matches somewhere in [s]. *)
Fixpoint search (re : list item) (s : string) : bool :=
  match_here re s ||
  match s with
  | EmptyString => false
  | String _ s' => search re s'
  end.

Fixpoint strip_prefix (p s : string) : option string :=
  match p, s with
  | EmptyString, _ => Some s
  | String a p', String b s' => if Ascii.eqb a b then strip_prefix p' s' else None
  | String _ _, EmptyString => None
  end.

(** The text up to the closing quote, which must end the expression. *)
Fixpoint quoted_body (s : string) : option string :=
  match s with
  | EmptyString => None
  | String c s' =>
      if Ascii.eqb c "034" then
        match s' with EmptyString => Some EmptyString | _ => None end
      else String c <$> quoted_body s'
  end.

Definition string_literal (s : string) : option string :=
  match s with
  | String c s' => if Ascii.eqb c "034" then quoted_body s' else None
  | EmptyString => None
  end.

(** Does the service identifier satisfy the filter?  [None] outside the
    two forms above. *)
Definition eval (filter serviceID : string) : option bool :=
  match strip_prefix "Service.ID matches " filter with
  | Some lit =>
      re ← string_literal lit ≫= parse;
      Some (search re serviceID)
  | None =>
      match strip_prefix "Service.ID not matches " filter with
      | Some lit =>
          re ← string_literal lit ≫= parse;
          Some (negb (search re serviceID))
      | None => None
      end
  end.

End bexpr.

(** ** The Connect metrics observer (pkg/metrics/observers/connect.go) *)

Definition nl : string := String "010"%char EmptyString.

Definition lines (l : list string) : string := String.concat nl l.

(** Go's [time] package: a [Duration] is an int64 count of nanoseconds. *)
Module time.
Definition Duration := Z.
Definition Nanosecond : Duration := 1.
Definition Microsecond : Duration := 1000 * Nanosecond.
Definition Millisecond : Duration := 1000 * Microsecond.
(** The product of two durations, in int64 arithmetic. *)
Definition mul (a b : Duration) : Duration := Int64.wrap (a * b).
End time.

Module providers.
(** The part of [providers.Interface] the observer calls: the query
    either yields a scalar or fails. *)
Class Interface (E : Type) := { RunQuery : string → E + float64 }.
End providers.

Module observers.

(** A Go map read at a missing key gives the zero value. *)
Definition index (m : gmap string string) (k : string) : string :=
  default "" (m !! k).

Definition query_request_success_rate : string :=
  lines [
    "";
    "	sum(";
    "		rate(";
    "			envoy_cluster_upstream_rq{";
    "				consul_service=" +:+ dq +:+ "{{ target }}" +:+ dq +:+ ",";
    "				consul_service_subset=" +:+ dq +:+ "canary" +:+ dq +:+ ",";
    "				envoy_response_code!~" +:+ dq +:+ "5.*" +:+ dq;
    "			}[{{ interval }}]";
    "		)";
    "	) ";
    "	/ ";
    "	sum(";
    "		rate(";
    "			envoy_cluster_upstream_rq{";
    "				consul_service=" +:+ dq +:+ "{{ target }}" +:+ dq +:+ ",";
    "				consul_service_subset=" +:+ dq +:+ "canary" +:+ dq;
    "			}[{{ interval }}]";
    "		)";
    "	) ";
    "	* 100" ].

Definition query_request_duration : string :=
  lines [
    "";
    "	histogram_quantile(";
    "		0.99,";
    "		sum(";
    "			rate(";
    "				envoy_cluster_upstream_rq_time_bucket{";
    "					consul_service=" +:+ dq +:+ "{{ target }}" +:+ dq +:+ ",";
    "					consul_service_subset=" +:+ dq +:+ "canary" +:+ dq;
    "				}[{{ interval }}]";
    "			)";
    "		) by (le)";
    "	)" ].

Definition connectQueries : gmap string string :=
  {[ "request-success-rate" := query_request_success_rate;
     "request-duration" := query_request_duration ]}.

(** The errors of the observer: [fmt.Errorf] around the cause. *)
Inductive error (E : Type) :=
| RenderingQueryFailed (cause : E)
| RunningQueryFailed (cause : E).
Arguments RenderingQueryFailed {E} cause.
Arguments RunningQueryFailed {E} cause.

Section ConnectObserver.
(** [flaggerv1.MetricTemplateModel] and [RenderQuery] (render.go) are
    declared elsewhere in the repository; the observer only hands the one
    to the other, so both are taken as given. *)
Context {MetricTemplateModel E : Type}.
Variable RenderQuery : string → MetricTemplateModel → E + string.

(** [ConnectObserver] has one field, the [client]. *)
Context {client : providers.Interface E}.

Definition GetRequestSuccessRate (model : MetricTemplateModel)
    : float64 * option (error E) :=
  match RenderQuery (index connectQueries "request-success-rate") model with
  | inl err => (F64.of_int 0, Some (RenderingQueryFailed err))
  | inr query =>
      match providers.RunQuery query with
      | inl err => (F64.of_int 0, Some (RunningQueryFailed err))
      | inr value => (value, None)
      end
  end.

Definition GetRequestDuration (model : MetricTemplateModel)
    : time.Duration * option (error E) :=
  match RenderQuery (index connectQueries "request-duration") model with
  | inl err => (0, Some (RenderingQueryFailed err))
  | inr query =>
      match providers.RunQuery query with
      | inl err => (0, Some (RunningQueryFailed err))
      | inr value =>
          let ms := time.mul (F64.to_int value) time.Millisecond in
          (ms, None)
      end
  end.
End ConnectObserver.

End observers.

(** ** Vocabulary of the statements *)

(** The key under which the agent keeps the split of a rollout target. *)
Definition splitterKey (canary : Canary) : string * string :=
  (ServiceSplitter, apexName canary).

(** The splitter entry that [updateSplitter] hands to the client. *)
Definition splitterOf (canary : Canary) (splits : list ServiceSplit.t) : ConfigEntry :=
  Splitter {| ServiceSplitterConfigEntry.Kind := ServiceSplitter;
              ServiceSplitterConfigEntry.Name := apexName canary;
              ServiceSplitterConfigEntry.Splits := splits |}.

Definition split (canary : Canary) (subset : string) (weight : Z) : ServiceSplit.t :=
  {| ServiceSplit.Weight := F32.of_int weight;
     ServiceSplit.Service := apexName canary;
     ServiceSplit.ServiceSubset := subset |}.

(** The split that [reconcileSplitter] writes when it finds none. *)
Definition bootstrap (canary : Canary) : ConfigEntry :=
  splitterOf canary [split canary "primary" 100].

(** The writes of one kind among the calls made so far, oldest first. *)
Definition writes (kind : string) (j : list Consul.event) : list ConfigEntry :=
  omap (λ ev, match ev with
              | Consul.ConfigSet e =>
                  if String.eqb (GetKind e) kind then Some e else None
              | _ => None
              end) j.

(** The failover map with the same remote datacenters for both subsets. *)
Definition failoverTo (apex : string) (dcs : list string)
    : gmap string ServiceResolverFailover.t :=
  {[ "primary" := {| ServiceResolverFailover.Service := apex;
                     ServiceResolverFailover.ServiceSubset := "primary";
                     ServiceResolverFailover.Datacenters := dcs |};
     "canary" := {| ServiceResolverFailover.Service := apex;
                    ServiceResolverFailover.ServiceSubset := "canary";
                    ServiceResolverFailover.Datacenters := dcs |} ]}.

(** What the catalog lookup of [reconcileResolver] yields, and the agent
    once the lookup (and the warning, when it failed) is on record. *)
Definition discovered (w : Consul.t) : list string :=
  match Consul.behaviour w Consul.Datacenters with
  | Consul.Served => Consul.datacenters w
  | _ => []
  end.

Definition afterDiscovery (w : Consul.t) : Consul.t :=
  match Consul.behaviour w Consul.Datacenters with
  | Consul.Served => Consul.record Consul.CatalogDatacenters w
  | _ => Consul.record (Consul.Warnf "Failed to fetch dc list %v")
           (Consul.record Consul.CatalogDatacenters w)
  end.

(** The resolver for a target, given the datacenters to fail over to. *)
Definition resolverOf (canary : Canary) (remote : list string)
    : ServiceResolverConfigEntry.t :=
  {| ServiceResolverConfigEntry.Kind := ServiceResolver;
     ServiceResolverConfigEntry.Name := apexName canary;
     ServiceResolverConfigEntry.DefaultSubset := "primary";
     ServiceResolverConfigEntry.Subsets :=
       {[ "primary" :=
            {| ServiceResolverSubset.Filter := primaryFilter (primaryName canary) |};
          "canary" :=
            {| ServiceResolverSubset.Filter := canaryFilter (primaryName canary) |} ]};
     ServiceResolverConfigEntry.Failover :=
       match remote return gmap string ServiceResolverFailover.t with
       | [] => ∅
       | _ :: _ => failoverTo (apexName canary) remote
       end |}.

(** The shape of a float32 rounded from a positive mantissa of 24 bits or
    more: finite with a full mantissa and an exponent of at least [emin],
    or infinite. *)
Definition full (sx : bool) (emin : Z) (x : float32) : Prop :=
  match x with
  | S754_finite s m e => s = sx ∧ 2 ^ 23 ≤ Z.pos m ∧ emin ≤ e
  | S754_infinity s => s = sx
  | _ => False
  end.

(** Concrete targets, agents and telemetry clients to run the code on. *)
Module Demo.

Definition canary : Canary :=
  {| apexName := "podinfo"; primaryName := "podinfo-primary";
     canaryName := "podinfo-canary"; Namespace := "test" |}.

(** An agent that serves every call and holds nothing yet. *)
Definition fresh : Consul.t :=
  {| Consul.entries := ∅;
     Consul.datacenters := ["dc1"; "dc2"; "dc3"];
     Consul.behaviour := λ _, Consul.Served;
     Consul.journal := [] |}.

(** The same agent once a 50/50 split is established. *)
Definition halfway : Consul.t := (SetRoutes canary 50 50 false fresh).2.

(** [halfway], when reads of the split fail on the way. *)
Definition halfway_unreadable : Consul.t :=
  {| Consul.entries := Consul.entries halfway;
     Consul.datacenters := Consul.datacenters halfway;
     Consul.behaviour := λ o, match o with
                              | Consul.Get _ => Consul.Failed
                              | _ => Consul.Served
                              end;
     Consul.journal := Consul.journal halfway |}.

(** An agent holding a split that names neither subset of the router. *)
Definition foreign : Consul.t :=
  {| Consul.entries :=
       {[ splitterKey canary := splitterOf canary [split canary "blue" 100] ]};
     Consul.datacenters := [];
     Consul.behaviour := λ _, Consul.Served;
     Consul.journal := [] |}.

(** A renderer that hands the template on as the query, and a telemetry
    client that answers every query with the same scalar. *)
Definition verbatim : string → unit → unit + string := λ template _, inr template.

Definition answering (value : float64) : providers.Interface unit :=
  {| providers.RunQuery := λ _, inr value |}.

End Demo.

(** ** Vocabulary of the further properties *)

Definition resolverKey (canary : Canary) : string * string :=
  (ServiceResolver, apexName canary).

(** The weight that the loop of [GetRoutes] is left with for a subset: the
    one of the last entry of that subset, zero when there is none. *)
Definition lastWeight (subset : string) (splits : list ServiceSplit.t) : Z :=
  from_option (λ sp, F32.to_int (ServiceSplit.Weight sp)) 0
    (last (filter (λ sp, ServiceSplit.ServiceSubset sp = subset) splits)).

(** A float of magnitude below one. *)
Definition belowOne (x : float32) : Prop :=
  match x with
  | S754_zero _ => True
  | S754_finite _ m e => Z.pos m < 2 ^ (- e)
  | S754_infinity _ | S754_nan => False
  end.

(** The split list for two integer weights: an entry for each positive
    one, primary first. *)
Definition splitsFor (canary : Canary) (p q : Z) : list ServiceSplit.t :=
  (if 1 <=? p then [split canary "primary" p] else []) ++
  (if 1 <=? q then [split canary "canary" q] else []).

(** The resolver that [Reconcile] writes on an agent. *)
Definition reconciledResolver (canary : Canary) (w : Consul.t) : ConfigEntry :=
  Resolver (resolverOf canary (drop 1 (discovered w))).

(** Does the read of the split in [reconcileSplitter] come back with an
    entry? *)
Definition splitFound (canary : Canary) (w : Consul.t) : bool :=
  match Consul.behaviour w (Consul.Get ServiceSplitter),
        Consul.entries w !! splitterKey canary with
  | Consul.Served, Some _ => true
  | _, _ => false
  end.

(** The calls of one [Reconcile], in order. *)
Definition reconcileCalls (canary : Canary) (w : Consul.t) : list Consul.event :=
  Consul.CatalogDatacenters ::
  match Consul.behaviour w Consul.Datacenters with
  | Consul.Served => []
  | _ => [Consul.Warnf "Failed to fetch dc list %v"]
  end ++
  Consul.ConfigSet (reconciledResolver canary w) ::
  match Consul.behaviour w (Consul.Set_ ServiceResolver) with
  | Consul.Served =>
      Consul.ConfigGet ServiceSplitter (apexName canary) ::
      (if splitFound canary w then [] else [Consul.ConfigSet (bootstrap canary)])
  | _ => []
  end.

(** The entries an agent holds after one [Reconcile]. *)
Definition reconciledEntries (canary : Canary) (w : Consul.t)
    : gmap (string * string) ConfigEntry :=
  match Consul.behaviour w (Consul.Set_ ServiceResolver) with
  | Consul.Served =>
      let held := <[resolverKey canary := reconciledResolver canary w]> (Consul.entries w) in
      if splitFound canary w then held
      else match Consul.behaviour w (Consul.Set_ ServiceSplitter) with
           | Consul.Served => <[splitterKey canary := bootstrap canary]> held
           | _ => held
           end
  | _ => Consul.entries w
  end.

(** The error, if any, that one [Reconcile] returns. *)
Definition reconcileResult (canary : Canary) (w : Consul.t) : option error :=
  match Consul.behaviour w (Consul.Set_ ServiceResolver) with
  | Consul.Served =>
      if splitFound canary w then None
      else match Consul.behaviour w (Consul.Set_ ServiceSplitter) with
           | Consul.Failed =>
               Some (NotAbleToSetSplitter (apexName canary) (Namespace canary) Unavailable)
           | _ => None
           end
  | Consul.Declined =>
      Some (NotAbleToCreateResolver (apexName canary) (Namespace canary))
  | Consul.Failed =>
      Some (ResolverCreationFailure (apexName canary) (Namespace canary) Unavailable)
  end.

(** More agents and clients to run the code on. *)
Module Cases.

(** An agent on which every write fails on the way. *)
Definition unwritable : Consul.t :=
  {| Consul.entries := Consul.entries Demo.halfway;
     Consul.datacenters := ["dc1"; "dc2"];
     Consul.behaviour := λ o, match o with
                              | Consul.Set_ _ => Consul.Failed
                              | _ => Consul.Served
                              end;
     Consul.journal := [] |}.

(** An agent that holds nothing and takes resolvers but no splitters. *)
Definition resolvers_only : Consul.t :=
  {| Consul.entries := ∅;
     Consul.datacenters := ["dc1"; "dc2"];
     Consul.behaviour := λ o, match o with
                              | Consul.Set_ kind =>
                                  if String.eqb kind ServiceResolver
                                  then Consul.Served else Consul.Failed
                              | _ => Consul.Served
                              end;
     Consul.journal := [] |}.

(** An agent holding, under the key of the split, an entry of another type. *)
Definition mistyped : Consul.t :=
  {| Consul.entries := {[ splitterKey Demo.canary := Other ServiceSplitter "podinfo" ]};
     Consul.datacenters := [];
     Consul.behaviour := λ _, Consul.Served;
     Consul.journal := [] |}.

(** An agent holding a split of one half for each subset. *)
Definition halves : list ServiceSplit.t :=
  [ {| ServiceSplit.Weight := F32.of_ratio 1 2; ServiceSplit.Service := "podinfo";
       ServiceSplit.ServiceSubset := "primary" |};
    {| ServiceSplit.Weight := F32.of_ratio 1 2; ServiceSplit.Service := "podinfo";
       ServiceSplit.ServiceSubset := "canary" |} ].

Definition fractional : Consul.t :=
  {| Consul.entries := {[ splitterKey Demo.canary := splitterOf Demo.canary halves ]};
     Consul.datacenters := [];
     Consul.behaviour := λ _, Consul.Served;
     Consul.journal := [] |}.

(** A split that names the primary subset twice. *)
Definition twice : list ServiceSplit.t :=
  [ split Demo.canary "primary" 30; split Demo.canary "canary" 20;
    split Demo.canary "primary" 80 ].

Definition repeated : Consul.t :=
  {| Consul.entries := {[ splitterKey Demo.canary := splitterOf Demo.canary twice ]};
     Consul.datacenters := [];
     Consul.behaviour := λ _, Consul.Served;
     Consul.journal := [] |}.

(** A second rollout target. *)
Definition other : Canary :=
  {| apexName := "backend"; primaryName := "backend-primary";
     canaryName := "backend-canary"; Namespace := "test" |}.

(** A renderer and a telemetry client that fail. *)
Definition unrenderable : string → unit → unit + string := λ _ _, inl tt.

Definition unreachable : providers.Interface unit :=
  {| providers.RunQuery := λ _, inl tt |}.

End Cases.

(** ** Vocabulary of the filter semantics *)







(** * Properties *)

(** ** The calls of the router, one by one *)

Section Calls.
Variable canary : Canary.

Lemma updateSplitter_served pw sw w :
  Consul.behaviour w (Consul.Set_ ServiceSplitter) = Consul.Served →
  ∃ splits,
    splits =
      (if F32.gt pw epsilon
       then [ {| ServiceSplit.Weight := pw; ServiceSplit.Service := apexName canary;
                 ServiceSplit.ServiceSubset := "primary" |} ] else []) ++
      (if F32.gt sw epsilon
       then [ {| ServiceSplit.Weight := sw; ServiceSplit.Service := apexName canary;
                 ServiceSplit.ServiceSubset := "canary" |} ] else []) ∧
    updateSplitter canary pw sw w =
      (None, Consul.store (splitterOf canary splits)
               (Consul.record (Consul.ConfigSet (splitterOf canary splits)) w)).
Proof.
  intros Hw. eexists; split; [reflexivity|].
  unfold updateSplitter. cbn.
  unfold mbind, M_bind, ConfigEntries_Set. cbn. rewrite Hw.
  destruct (F32.gt pw epsilon), (F32.gt sw epsilon); reflexivity.
Qed.

(** Whatever the agent answers, [updateSplitter] issues exactly one
    call, the write of the split it built. *)
Lemma updateSplitter_journal pw sw w :
  Consul.journal (updateSplitter canary pw sw w).2 =
    Consul.journal w ++
    [Consul.ConfigSet (splitterOf canary
       ((if F32.gt pw epsilon
         then [ {| ServiceSplit.Weight := pw; ServiceSplit.Service := apexName canary;
                   ServiceSplit.ServiceSubset := "primary" |} ] else []) ++
        (if F32.gt sw epsilon
         then [ {| ServiceSplit.Weight := sw; ServiceSplit.Service := apexName canary;
                   ServiceSplit.ServiceSubset := "canary" |} ] else [])))].
Proof.
  unfold updateSplitter. cbn.
  unfold mbind, M_bind, ConfigEntries_Set. cbn.
  destruct (F32.gt pw epsilon), (F32.gt sw epsilon);
    destruct (Consul.behaviour w _); reflexivity.
Qed.

Lemma GetRoutes_served s w :
  Consul.behaviour w (Consul.Get ServiceSplitter) = Consul.Served →
  Consul.entries w !! splitterKey canary = Some (Splitter s) →
  (GetRoutes canary w).1 =
    let '(pw, cw) := scanSplits (ServiceSplitterConfigEntry.Splits s) in
    {| primaryWeight := pw; canaryWeight := cw; mirrored := false;
       err := if (pw =? 0) && (cw =? 0)
              then Some (NoRoutes (apexName canary) (Namespace canary))
              else None |}.
Proof.
  intros Hw He. unfold GetRoutes. cbn.
  unfold mbind, M_bind, ConfigEntries_Get. cbn. rewrite Hw.
  unfold splitterKey in He. rewrite He.
  destruct (scanSplits _); reflexivity.
Qed.

(** [GetRoutes] only reads: it leaves the entries and the behaviour of
    the agent as they are. *)
Lemma GetRoutes_reads w :
  (GetRoutes canary w).2 =
    Consul.record (Consul.ConfigGet ServiceSplitter (apexName canary)) w.
Proof.
  unfold GetRoutes. cbn. unfold mbind, M_bind, ConfigEntries_Get. cbn.
  destruct (Consul.behaviour w _); try reflexivity.
  destruct (Consul.entries w !! _) as [[r|s|k n]|]; try reflexivity.
  destruct (scanSplits _); reflexivity.
Qed.

Lemma store_lookup e w :
  Consul.entries (Consul.store e w) !! (GetKind e, GetName e) = Some e.
Proof. cbn. apply lookup_insert_eq. Qed.

End Calls.

(** ** Round trip of the split *)

Section RoundTrip.
Variable canary : Canary.

(** The split list of [SetRoutes] for weights the epsilon test settles
    by computation. *)
Lemma SetRoutes_served p q m w splits :
  Consul.behaviour w (Consul.Set_ ServiceSplitter) = Consul.Served →
  (if F32.gt (F32.of_int p) epsilon then [split canary "primary" p] else []) ++
  (if F32.gt (F32.of_int q) epsilon then [split canary "canary" q] else []) = splits →
  SetRoutes canary p q m w =
    (None, Consul.store (splitterOf canary splits)
             (Consul.record (Consul.ConfigSet (splitterOf canary splits)) w)).
Proof.
  intros Hw <-. unfold SetRoutes.
  destruct (updateSplitter_served canary (F32.of_int p) (F32.of_int q) w Hw)
    as (splits & -> & ->).
  reflexivity.
Qed.

Lemma GetRoutes_after_store splits w :
  Consul.behaviour w (Consul.Get ServiceSplitter) = Consul.Served →
  (GetRoutes canary (Consul.store (splitterOf canary splits) w)).1 =
    let '(pw, cw) := scanSplits splits in
    {| primaryWeight := pw; canaryWeight := cw; mirrored := false;
       err := if (pw =? 0) && (cw =? 0)
              then Some (NoRoutes (apexName canary) (Namespace canary))
              else None |}.
Proof.
  intros Hw.
  apply (GetRoutes_served canary
           {| ServiceSplitterConfigEntry.Kind := ServiceSplitter;
              ServiceSplitterConfigEntry.Name := apexName canary;
              ServiceSplitterConfigEntry.Splits := splits |}); [exact Hw|].
  apply (store_lookup (splitterOf canary splits)).
Qed.

(** C1.  On an agent that serves writes and reads of the split,
    [SetRoutes(90, 10, false)] followed by [GetRoutes] returns
    [(90, 10, false)] without error, and [SetRoutes(100, 0, false)]
    followed by [GetRoutes] returns [(100, 0, false)] without error,
    although the split then stored holds the primary entry alone: the
    read gives the canary subset, which has no entry, the weight 0. *)
Theorem C1_set_then_get_round_trip (w : Consul.t) :
  Consul.behaviour w (Consul.Set_ ServiceSplitter) = Consul.Served →
  Consul.behaviour w (Consul.Get ServiceSplitter) = Consul.Served →
  let '(e1, w1) := SetRoutes canary 90 10 false w in
  let '(r1, w2) := GetRoutes canary w1 in
  let '(e2, w3) := SetRoutes canary 100 0 false w2 in
  let '(r2, _) := GetRoutes canary w3 in
  e1 = None ∧
  r1 = {| primaryWeight := 90; canaryWeight := 10; mirrored := false; err := None |} ∧
  e2 = None ∧
  r2 = {| primaryWeight := 100; canaryWeight := 0; mirrored := false; err := None |} ∧
  Consul.entries w3 !! splitterKey canary =
    Some (splitterOf canary [split canary "primary" 100]).
Proof.
  intros Hset Hget.
  rewrite (SetRoutes_served 90 10 false w
             [split canary "primary" 90; split canary "canary" 10] Hset)
    by (vm_compute; reflexivity).
  set (w1 := Consul.store _ _).
  rewrite (surjective_pairing (GetRoutes canary w1)), GetRoutes_reads.
  set (w2 := Consul.record _ w1).
  rewrite (SetRoutes_served 100 0 false w2 [split canary "primary" 100])
    by first [exact Hset | vm_compute; reflexivity].
  set (w3 := Consul.store _ _).
  rewrite (surjective_pairing (GetRoutes canary w3)).
  subst w1 w3.
  rewrite !GetRoutes_after_store by exact Hget.
  split; [reflexivity|]. split; [vm_compute; reflexivity|].
  split; [reflexivity|]. split; [vm_compute; reflexivity|].
  apply (store_lookup (splitterOf canary [split canary "primary" 100])).
Qed.

(** C9.  The [mirrored] argument of [SetRoutes] is not looked at: with
    [true] and with [false] the call returns the same result and leaves
    the agent in the same state, for every target, every pair of weights
    and every agent.  Whether the call returns an error is the agent's
    doing alone: it does exactly when the write fails on the way. *)
Theorem C9_mirror_flag_ignored (p q : Z) (w : Consul.t) :
  SetRoutes canary p q true w = SetRoutes canary p q false w ∧
  ∀ m, (SetRoutes canary p q m w).1 = None ↔
       Consul.behaviour w (Consul.Set_ ServiceSplitter) ≠ Consul.Failed.
Proof.
  split; [reflexivity|]. intros m.
  unfold SetRoutes, updateSplitter, GetServiceNames. cbv beta iota.
  unfold mbind, M_bind, ConfigEntries_Set.
  cbn [Consul.behaviour Consul.record GetKind ServiceSplitterConfigEntry.Kind].
  destruct (Consul.behaviour w (Consul.Set_ ServiceSplitter)); cbn [fst mret M_ret];
    split; intros H; try reflexivity; try discriminate; contradiction.
Qed.

Lemma scanSplits_foreign splits acc :
  (∀ sp, sp ∈ splits →
     ServiceSplit.ServiceSubset sp ≠ "primary" ∧
     ServiceSplit.ServiceSubset sp ≠ "canary") →
  fold_left scanSplit splits acc = acc.
Proof.
  revert acc. induction splits as [|sp splits IH]; intros acc Hall; [reflexivity|].
  cbn [fold_left]. rewrite IH.
  - destruct acc as [pw cw]. unfold scanSplit.
    destruct (Hall sp) as [Hp Hc]; [left|].
    apply String.eqb_neq in Hp, Hc. rewrite Hp, Hc. reflexivity.
  - intros sp' Hin. apply Hall. by right.
Qed.

(** C3.  When the agent serves the read and the split it holds has no
    entry for the subset [primary] and none for the subset [canary],
    [GetRoutes] returns the error "does not contain routes for
    apex-primary and apex-canary" (the design's ConfigInvalid kind)
    next to the zero weights, not a success. *)
Theorem C3_no_routes_is_an_error (w : Consul.t) (s : ServiceSplitterConfigEntry.t) :
  Consul.behaviour w (Consul.Get ServiceSplitter) = Consul.Served →
  Consul.entries w !! splitterKey canary = Some (Splitter s) →
  (∀ sp, sp ∈ ServiceSplitterConfigEntry.Splits s →
     ServiceSplit.ServiceSubset sp ≠ "primary" ∧
     ServiceSplit.ServiceSubset sp ≠ "canary") →
  (GetRoutes canary w).1 =
    {| primaryWeight := 0; canaryWeight := 0; mirrored := false;
       err := Some (NoRoutes (apexName canary) (Namespace canary)) |}.
Proof.
  intros Hget Hs Hnone.
  rewrite (GetRoutes_served canary s w Hget Hs).
  unfold scanSplits. rewrite scanSplits_foreign by exact Hnone.
  reflexivity.
Qed.

End RoundTrip.

(** ** Reconciliation *)

Section Reconcile.
Variable canary : Canary.

Lemma failoverTo_insert apex dcs :
  <["canary" := {| ServiceResolverFailover.Service := apex;
                   ServiceResolverFailover.ServiceSubset := "canary";
                   ServiceResolverFailover.Datacenters := dcs |}]>
    (<["primary" := {| ServiceResolverFailover.Service := apex;
                       ServiceResolverFailover.ServiceSubset := "primary";
                       ServiceResolverFailover.Datacenters := dcs |}]> ∅)
  = failoverTo apex dcs.
Proof.
  unfold failoverTo. rewrite insert_insert_ne by discriminate.
  rewrite insert_empty. reflexivity.
Qed.

(** [reconcileResolver], call by call: the catalog lookup, the warning
    if it failed, and the one write of the resolver. *)
Lemma reconcileResolver_run w :
  let r := Resolver (resolverOf canary (drop 1 (discovered w))) in
  let w1 := Consul.record (Consul.ConfigSet r) (afterDiscovery w) in
  reconcileResolver canary w =
    match Consul.behaviour w (Consul.Set_ ServiceResolver) with
    | Consul.Served => (None, Consul.store r w1)
    | Consul.Declined =>
        (Some (NotAbleToCreateResolver (apexName canary) (Namespace canary)), w1)
    | Consul.Failed =>
        (Some (ResolverCreationFailure (apexName canary) (Namespace canary)
                 Unavailable), w1)
    end.
Proof.
  unfold reconcileResolver, discovered, afterDiscovery, resolverOf. cbn.
  unfold mbind, M_bind, Catalog_Datacenters, logger_Warnf, ConfigEntries_Set. cbn.
  destruct (Consul.behaviour w Consul.Datacenters) eqn:Hdc; cbn.
  1: destruct (Consul.datacenters w) as [|local [|d remote]]; cbn.
  all: rewrite ?failoverTo_insert;
    destruct (Consul.behaviour w (Consul.Set_ ServiceResolver)); reflexivity.
Qed.

(** [reconcileSplitter]: the read, and the bootstrap write when the read
    returned an error. *)
Lemma reconcileSplitter_run w :
  let w1 := Consul.record (Consul.ConfigGet ServiceSplitter (apexName canary)) w in
  reconcileSplitter canary w =
    match (ConfigEntries_Get ServiceSplitter (apexName canary) w).1 with
    | inr _ => (None, w1)
    | inl _ => updateSplitter canary (F32.of_int 100) (F32.of_int 0) w1
    end.
Proof.
  unfold reconcileSplitter, GetServiceNames. cbv beta iota. unfold mbind, M_bind.
  assert (Hw : (ConfigEntries_Get ServiceSplitter (apexName canary) w).2 =
               Consul.record (Consul.ConfigGet ServiceSplitter (apexName canary)) w).
  { unfold ConfigEntries_Get. cbn.
    destruct (Consul.behaviour w _); try reflexivity.
    destruct (Consul.entries w !! _); reflexivity. }
  destruct (ConfigEntries_Get ServiceSplitter (apexName canary) w) as [[e|e] w1].
  all: cbn [snd fst] in Hw |- *; subst w1.
  - destruct (updateSplitter canary _ _ _) as [[e2|] w2]; reflexivity.
  - reflexivity.
Qed.

Lemma Reconcile_run w :
  Reconcile canary w =
    match reconcileResolver canary w with
    | (Some e, w1) => (Some e, w1)
    | (None, w1) => reconcileSplitter canary w1
    end.
Proof.
  unfold Reconcile, mbind, M_bind.
  destruct (reconcileResolver canary w) as [[e|] w1]; [reflexivity|].
  destruct (reconcileSplitter canary w1) as [[e|] w2]; reflexivity.
Qed.

Lemma bootstrap_splits w :
  Consul.behaviour w (Consul.Set_ ServiceSplitter) = Consul.Served →
  updateSplitter canary (F32.of_int 100) (F32.of_int 0) w =
    (None, Consul.store (bootstrap canary)
             (Consul.record (Consul.ConfigSet (bootstrap canary)) w)).
Proof.
  intros Hw. apply (SetRoutes_served canary 100 0 false w); [exact Hw|].
  vm_compute; reflexivity.
Qed.

Lemma bootstrap_journal w :
  Consul.journal (updateSplitter canary (F32.of_int 100) (F32.of_int 0) w).2 =
    Consul.journal w ++ [Consul.ConfigSet (bootstrap canary)].
Proof.
  unfold updateSplitter. cbn. unfold mbind, M_bind, ConfigEntries_Set. cbn.
  change (F32.gt (F32.of_int 100) epsilon) with true.
  change (F32.gt (F32.of_int 0) epsilon) with false. cbn.
  destruct (Consul.behaviour w _); reflexivity.
Qed.

Lemma writes_app kind j1 j2 :
  writes kind (j1 ++ j2) = writes kind j1 ++ writes kind j2.
Proof. unfold writes. apply omap_app. Qed.

Lemma afterDiscovery_frame w :
  Consul.behaviour (afterDiscovery w) = Consul.behaviour w ∧
  Consul.entries (afterDiscovery w) = Consul.entries w ∧
  ∀ kind, writes kind (Consul.journal (afterDiscovery w)) =
          writes kind (Consul.journal w).
Proof.
  unfold afterDiscovery.
  destruct (Consul.behaviour w Consul.Datacenters);
    cbn [Consul.behaviour Consul.entries Consul.journal Consul.record];
    repeat split; intros; rewrite ?writes_app; cbn; rewrite ?app_nil_r;
    reflexivity.
Qed.

(** What [reconcileResolver] leaves behind: one more resolver write, no
    splitter write, and the split of the target as it was. *)
Lemma reconcileResolver_frame w :
  let w1 := (reconcileResolver canary w).2 in
  Consul.behaviour w1 = Consul.behaviour w ∧
  Consul.entries w1 !! splitterKey canary = Consul.entries w !! splitterKey canary ∧
  writes ServiceSplitter (Consul.journal w1) =
    writes ServiceSplitter (Consul.journal w) ∧
  writes ServiceResolver (Consul.journal w1) =
    writes ServiceResolver (Consul.journal w) ++
    [Resolver (resolverOf canary (drop 1 (discovered w)))].
Proof.
  rewrite reconcileResolver_run.
  destruct (afterDiscovery_frame w) as (Hb & He & Hj).
  destruct (Consul.behaviour w (Consul.Set_ ServiceResolver)); cbn [snd].
  all: cbn [Consul.behaviour Consul.entries Consul.journal Consul.store
            Consul.record GetKind GetName resolverOf
            ServiceResolverConfigEntry.Kind ServiceResolverConfigEntry.Name].
  all: rewrite ?writes_app, ?Hj, ?He, ?Hb.
  all: repeat split; try reflexivity.
  all: try (rewrite app_nil_r; reflexivity).
  rewrite lookup_insert_ne; [reflexivity | discriminate].
Qed.

(** [reconcileSplitter] never writes a resolver. *)
Lemma reconcileSplitter_resolver_writes w :
  writes ServiceResolver (Consul.journal (reconcileSplitter canary w).2) =
    writes ServiceResolver (Consul.journal w).
Proof.
  rewrite reconcileSplitter_run.
  destruct (ConfigEntries_Get _ _ w).1.
  - rewrite bootstrap_journal. cbn [Consul.journal Consul.record].
    rewrite !writes_app, !app_nil_r. reflexivity.
  - cbn [snd Consul.journal Consul.record].
    rewrite writes_app, app_nil_r. reflexivity.
Qed.

(** Every [Reconcile] issues exactly one write of the resolver, whatever
    the agent answers. *)
Lemma Reconcile_resolver_write w :
  writes ServiceResolver (Consul.journal (Reconcile canary w).2) =
    writes ServiceResolver (Consul.journal w) ++
    [Resolver (resolverOf canary (drop 1 (discovered w)))].
Proof.
  rewrite Reconcile_run.
  destruct (reconcileResolver_frame w) as (_ & _ & _ & Hr).
  destruct (reconcileResolver canary w) as [[e|] w1]; cbn [snd] in *.
  - exact Hr.
  - rewrite reconcileSplitter_resolver_writes. exact Hr.
Qed.

(** When the agent serves the two writes, [Reconcile] succeeds, whatever
    becomes of the catalog lookup and of the read of the split. *)
Lemma Reconcile_succeeds w :
  Consul.behaviour w (Consul.Set_ ServiceResolver) = Consul.Served →
  Consul.behaviour w (Consul.Set_ ServiceSplitter) = Consul.Served →
  (Reconcile canary w).1 = None.
Proof.
  intros Hres Hspl. rewrite Reconcile_run.
  destruct (reconcileResolver_frame w) as (Hb & _).
  rewrite reconcileResolver_run, Hres in *. cbn [snd] in Hb.
  rewrite reconcileSplitter_run.
  destruct (ConfigEntries_Get _ _ _).1; [|reflexivity].
  rewrite bootstrap_splits; [reflexivity|].
  change (Consul.behaviour (Consul.record ?ev ?w')) with (Consul.behaviour w').
  rewrite Hb. exact Hspl.
Qed.

End Reconcile.

(** ** What [Reconcile] does to the split and to the resolver *)

Section ReconcileClaims.
Variable canary : Canary.


Lemma Get_unserved kind name w :
  Consul.behaviour w (Consul.Get kind) ≠ Consul.Served →
  (ConfigEntries_Get kind name w).1 = inl Unavailable.
Proof.
  intros Hw. unfold ConfigEntries_Get.
  cbn [Consul.behaviour Consul.entries Consul.record].
  destruct (Consul.behaviour w _); [contradiction | reflexivity..].
Qed.



(** C6.  When the read of the split does not come back served -- the
    agent is unreachable or answers with an error, whether or not a
    split is stored -- and the agent serves the two writes, [Reconcile]
    succeeds and has written the split [primary: 100] over whatever was
    stored under the apex name; [reconcileSplitter] alone does the same. *)
Theorem C6_bootstrap_on_any_read_error (w : Consul.t) :
  Consul.behaviour w (Consul.Get ServiceSplitter) ≠ Consul.Served →
  Consul.behaviour w (Consul.Set_ ServiceResolver) = Consul.Served →
  Consul.behaviour w (Consul.Set_ ServiceSplitter) = Consul.Served →
  reconcileSplitter canary w =
    (None, Consul.store (bootstrap canary)
             (Consul.record (Consul.ConfigSet (bootstrap canary))
                (Consul.record
                   (Consul.ConfigGet ServiceSplitter (apexName canary)) w))) ∧
  let w' := (Reconcile canary w).2 in
  (Reconcile canary w).1 = None ∧
  writes ServiceSplitter (Consul.journal w') =
    writes ServiceSplitter (Consul.journal w) ++ [bootstrap canary] ∧
  Consul.entries w' !! splitterKey canary = Some (bootstrap canary).
Proof.
  intros Hget Hres Hspl. split.
  { rewrite reconcileSplitter_run, Get_unserved by exact Hget.
    apply bootstrap_splits. exact Hspl. }
  cbv zeta. split; [apply Reconcile_succeeds; assumption|].
  rewrite Reconcile_run.
  destruct (reconcileResolver_frame canary w) as (Hb & _ & Hj & _).
  rewrite reconcileResolver_run, Hres in *. cbn [snd] in *.
  set (w1 := Consul.store _ _) in *.
  rewrite reconcileSplitter_run, Get_unserved by (rewrite Hb; exact Hget).
  rewrite bootstrap_splits
    by (change (Consul.behaviour (Consul.record ?ev ?w')) with (Consul.behaviour w');
        rewrite Hb; exact Hspl).
  cbn [snd]. split.
  - cbn [Consul.journal Consul.store Consul.record].
    rewrite !writes_app, Hj, app_nil_r. reflexivity.
  - apply (store_lookup (bootstrap canary)).
Qed.

Lemma reconcileSplitter_journal w :
  ∃ j, Consul.journal (reconcileSplitter canary w).2 = Consul.journal w ++ j.
Proof.
  rewrite reconcileSplitter_run.
  destruct (ConfigEntries_Get _ _ w).1.
  - rewrite bootstrap_journal. cbn [Consul.journal Consul.record].
    rewrite <- app_assoc. eexists; reflexivity.
  - cbn [snd Consul.journal Consul.record]. eexists; reflexivity.
Qed.

Lemma reconcileResolver_journal w :
  Consul.journal (reconcileResolver canary w).2 =
    Consul.journal (afterDiscovery w) ++
    [Consul.ConfigSet (Resolver (resolverOf canary (drop 1 (discovered w))))].
Proof.
  rewrite reconcileResolver_run.
  destruct (Consul.behaviour w (Consul.Set_ ServiceResolver)); reflexivity.
Qed.

(** A failed catalog lookup is on record in the log once [Reconcile]
    returns. *)
Lemma Reconcile_warns w :
  Consul.behaviour w Consul.Datacenters ≠ Consul.Served →
  Consul.Warnf "Failed to fetch dc list %v" ∈ Consul.journal (Reconcile canary w).2.
Proof.
  intros Hdc.
  assert (Hin : Consul.Warnf "Failed to fetch dc list %v"
                  ∈ Consul.journal (reconcileResolver canary w).2).
  { rewrite reconcileResolver_journal. unfold afterDiscovery.
    destruct (Consul.behaviour w Consul.Datacenters); [contradiction|..];
      cbn [Consul.journal Consul.record]; set_solver. }
  rewrite Reconcile_run.
  destruct (reconcileResolver canary w) as [[e|] w1]; cbn [snd] in *; [exact Hin|].
  destruct (reconcileSplitter_journal w1) as [j ->]. set_solver.
Qed.

(** C5.  Every [Reconcile] hands exactly one resolver to the agent.
    When the catalog lookup is served and returns a first datacenter
    followed by at least one more, the failover of that resolver maps
    [primary] and [canary] alike to the apex name, their own subset and
    the datacenters after the first, in the order returned.  When the
    lookup returns one datacenter or none, or is not served, the
    resolver has no failover at all; in the latter case a warning is
    logged and [Reconcile] still succeeds if the agent serves the two
    writes. *)
Theorem C5_failover_population (w : Consul.t) :
  let w' := (Reconcile canary w).2 in
  ∃ r,
    writes ServiceResolver (Consul.journal w') =
      writes ServiceResolver (Consul.journal w) ++ [Resolver r] ∧
    (∀ local d remote,
       Consul.behaviour w Consul.Datacenters = Consul.Served →
       Consul.datacenters w = local :: d :: remote →
       ServiceResolverConfigEntry.Failover r =
         failoverTo (apexName canary) (d :: remote)) ∧
    (Consul.behaviour w Consul.Datacenters = Consul.Served →
     (length (Consul.datacenters w) ≤ 1)%nat →
     ServiceResolverConfigEntry.Failover r = ∅) ∧
    (Consul.behaviour w Consul.Datacenters ≠ Consul.Served →
     ServiceResolverConfigEntry.Failover r = ∅ ∧
     Consul.Warnf "Failed to fetch dc list %v" ∈ Consul.journal w' ∧
     (Consul.behaviour w (Consul.Set_ ServiceResolver) = Consul.Served →
      Consul.behaviour w (Consul.Set_ ServiceSplitter) = Consul.Served →
      (Reconcile canary w).1 = None)).
Proof.
  cbv zeta. exists (resolverOf canary (drop 1 (discovered w))).
  split; [apply Reconcile_resolver_write|].
  unfold discovered. repeat split.
  - intros local d remote -> ->. reflexivity.
  - intros -> Hlen.
    destruct (Consul.datacenters w) as [|local [|d remote]];
      [reflexivity | reflexivity | cbn in Hlen; lia].
  - destruct (Consul.behaviour w Consul.Datacenters);
      [contradiction | reflexivity..].
  - apply Reconcile_warns. assumption.
  - intros Hres Hspl. apply Reconcile_succeeds; assumption.
Qed.

End ReconcileClaims.

(** ** The subset filters *)

Section Filters.
Variable canary : Canary.

(** The canary filter is the negation of the primary filter, on every
    service identifier and for every primary name. *)
Lemma canaryFilter_negates (name serviceID : string) :
  bexpr.eval (canaryFilter name) serviceID =
    negb <$> bexpr.eval (primaryFilter name) serviceID.
Proof.
  set (re := bexpr.string_literal (dq +:+ name +:+ "-.+" +:+ dq) ≫= bexpr.parse).
  change (bexpr.eval (canaryFilter name) serviceID)
    with (re ≫= λ re, Some (negb (bexpr.search re serviceID))).
  change (bexpr.eval (primaryFilter name) serviceID)
    with (re ≫= λ re, Some (bexpr.search re serviceID)).
  destruct re; reflexivity.
Qed.













End Filters.

(** ** The request duration *)

Section Duration.
Context {MetricTemplateModel E : Type}.
Variable RenderQuery : string → MetricTemplateModel → E + string.
Context {client : providers.Interface E}.

Lemma GetRequestDuration_ran model query value :
  RenderQuery (observers.index observers.connectQueries "request-duration") model
    = inr query →
  providers.RunQuery query = inr value →
  observers.GetRequestDuration RenderQuery model =
    (time.mul (F64.to_int value) time.Millisecond, None).
Proof.
  intros Hrender Hrun. unfold observers.GetRequestDuration.
  rewrite Hrender, Hrun. reflexivity.
Qed.

(** C8.  When the request-duration query renders and its execution
    yields the scalar 250, [GetRequestDuration] returns, without error,
    the duration 250 * [time.Millisecond], that is 250 000 000
    nanoseconds. *)
Theorem C8_duration_in_milliseconds model query :
  RenderQuery (observers.index observers.connectQueries "request-duration") model
    = inr query →
  providers.RunQuery query = inr (F64.of_int 250) →
  observers.GetRequestDuration RenderQuery model = (250 * time.Millisecond, None) ∧
  250 * time.Millisecond = 250000000.
Proof.
  intros Hrender Hrun.
  rewrite (GetRequestDuration_ran model query _ Hrender Hrun).
  split; vm_compute; reflexivity.
Qed.

Lemma trunc_quot (s : bool) (m : positive) (e : Z) :
  e < 0 →
  cond_Zopp s (Z.shiftl (Z.pos m) e) = Z.quot (cond_Zopp s (Z.pos m)) (2 ^ (- e)).
Proof.
  intros He.
  rewrite <- Z.shiftr_opp_r, Z.shiftr_div_pow2 by lia.
  assert (0 < 2 ^ (- e)) by (apply Z.pow_pos_nonneg; lia).
  destruct s; cbn [cond_Zopp].
  - rewrite Z.quot_opp_l by lia. f_equal.
    symmetry. apply Z.quot_div_nonneg; lia.
  - symmetry. apply Z.quot_div_nonneg; lia.
Qed.

(** The mantissa of a float64 has at most 53 bits. *)
Lemma float64_mantissa (s : bool) (m : positive) (e : Z) :
  valid_binary F64.prec F64.emax (S754_finite s m e) = true → Z.pos m < 2 ^ 53.
Proof.
  unfold valid_binary, bounded, canonical_mantissa, fexp, emin, F64.prec, F64.emax.
  intros Hv. apply andb_prop in Hv as [Hc _]. apply Z.eqb_eq in Hc.
  assert (Hd : Z.pos (digits2_pos m) ≤ 53) by lia.
  assert (Hm : Z.pos m < 2 ^ Z.pos (Pos.size m)).
  { pose proof (Pos.size_gt m) as Hgt. apply Pos2Z.pos_lt_pos in Hgt.
    rewrite Pos2Z.inj_pow in Hgt. exact Hgt. }
  assert (Hsz : digits2_pos m = Pos.size m)
    by (clear; induction m as [m IH|m IH|]; cbn; congruence).
  rewrite <- Hsz in Hm.
  assert (2 ^ Z.pos (digits2_pos m) ≤ 2 ^ 53) by (apply Z.pow_le_mono_r; lia).
  lia.
Qed.

(** C10.  When the query yields a float64 with a fractional part -- the
    value [(-1)^s * m * 2^e] with [e < 0] -- [GetRequestDuration]
    returns its integer part, the quotient rounded toward zero
    ([Z.quot]), times [time.Millisecond] in int64 arithmetic; the
    fraction is gone.  So the scalar 250.9 gives 250 ms, not 251 ms, and
    -250.9 gives -250 ms. *)
Theorem C10_duration_truncates model query (s : bool) (m : positive) (e : Z) :
  RenderQuery (observers.index observers.connectQueries "request-duration") model
    = inr query →
  providers.RunQuery query = inr (S754_finite s m e) →
  valid_binary F64.prec F64.emax (S754_finite s m e) = true →
  e < 0 →
  observers.GetRequestDuration RenderQuery model =
    (time.mul (Z.quot (cond_Zopp s (Z.pos m)) (2 ^ (- e))) time.Millisecond, None) ∧
  F64.to_int (F64.of_ratio 2509 10) = 250 ∧
  F64.to_int (F64.of_ratio (-2509) 10) = -250.
Proof.
  intros Hrender Hrun Hvalid He.
  rewrite (GetRequestDuration_ran model query _ Hrender Hrun).
  split; [|split; vm_compute; reflexivity].
  pose proof (float64_mantissa s m e Hvalid) as Hm.
  unfold F64.to_int, IEEE.to_int, IEEE.trunc.
  rewrite trunc_quot by exact He.
  assert (Hk : Int64.in_range (Z.quot (cond_Zopp s (Z.pos m)) (2 ^ (- e))) = true).
  { rewrite <- trunc_quot by exact He.
    rewrite <- Z.shiftr_opp_r, Z.shiftr_div_pow2 by lia.
    assert (0 < 2 ^ (- e)) by (apply Z.pow_pos_nonneg; lia).
    assert (0 ≤ Z.pos m `div` 2 ^ (- e) ≤ Z.pos m).
    { split; [apply Z.div_pos; lia|].
      apply Z.div_le_upper_bound; [lia|]. nia. }
    unfold Int64.in_range, Int64.min_int, Int64.max_int.
    apply andb_true_intro. split; apply Z.leb_le; destruct s; cbn [cond_Zopp]; lia. }
  rewrite Hk. reflexivity.
Qed.

End Duration.

(** ** Integers as float32 weights *)

Section Binary32.

Lemma digits2_size p : digits2_pos p = Pos.size p.
Proof. induction p as [p IH|p IH|]; cbn; congruence. Qed.

Lemma Zdigits2_log2 m : 0 < m → Zdigits2 m = Z.log2 m + 1.
Proof.
  destruct m as [|p|p]; try lia. intros _. cbn [Zdigits2].
  rewrite digits2_size. destruct p; cbn; lia.
Qed.

Lemma Zdigits2_bounds m :
  0 < m → 2 ^ (Zdigits2 m - 1) ≤ m < 2 ^ Zdigits2 m.
Proof.
  intros Hm. rewrite Zdigits2_log2 by exact Hm.
  replace (Z.log2 m + 1 - 1) with (Z.log2 m) by lia.
  apply (Z.log2_spec m Hm).
Qed.

Lemma Zdigits2_ge m k : 0 ≤ k → 2 ^ k ≤ m → k + 1 ≤ Zdigits2 m.
Proof.
  intros Hk Hm.
  assert (0 < m) by (pose proof (Z.pow_pos_nonneg 2 k); lia).
  rewrite Zdigits2_log2 by assumption.
  apply Z.log2_le_pow2 in Hm; lia.
Qed.

Lemma shr_1_m mrs : 0 ≤ shr_m mrs → shr_m (shr_1 mrs) = shr_m mrs / 2.
Proof.
  destruct mrs as [m r s]. cbn [shr_m]. intros Hm.
  destruct m as [|[p|p|]|p]; cbn [shr_1 shr_m]; try lia.
  - reflexivity.
  - apply Z.div_unique with 1; lia.
  - apply Z.div_unique with 0; lia.
  - reflexivity.
Qed.

Lemma iter_shr_1_m p : ∀ mrs,
  0 ≤ shr_m mrs → shr_m (SpecFloat.iter_pos shr_1 p mrs) = shr_m mrs / 2 ^ Z.pos p.
Proof.
  assert (Hdiv : ∀ a b c, 0 ≤ a → 0 < b → 0 < c → a / b / c = a / (b * c)).
  { intros a b c Ha Hb Hc. apply Z.div_div; lia. }
  assert (Hpow : ∀ q, 0 < 2 ^ Z.pos q) by (intros; apply Z.pow_pos_nonneg; lia).
  induction p as [p IH|p IH|]; intros mrs Hm; cbn [SpecFloat.iter_pos].
  - assert (0 ≤ shr_m (shr_1 mrs)).
    { rewrite shr_1_m by exact Hm. apply Z.div_pos; lia. }
    assert (0 ≤ shr_m (SpecFloat.iter_pos shr_1 p (shr_1 mrs))).
    { rewrite IH by assumption. apply Z.div_pos; [assumption | apply Hpow]. }
    rewrite !IH, shr_1_m by assumption.
    pose proof (Hpow p).
    rewrite !Hdiv by (try apply Z.div_pos; lia).
    f_equal.
    rewrite <- Z.pow_add_r, <- Z.pow_succ_r by lia.
    f_equal; lia.
  - assert (0 ≤ shr_m (SpecFloat.iter_pos shr_1 p mrs)).
    { rewrite IH by assumption. apply Z.div_pos; [assumption | apply Hpow]. }
    rewrite !IH by assumption.
    pose proof (Hpow p).
    rewrite Hdiv by lia.
    f_equal. rewrite <- Z.pow_add_r by lia. f_equal; lia.
  - rewrite shr_1_m by exact Hm. reflexivity.
Qed.

(** A shift to the right divides the mantissa and raises the exponent. *)
Lemma shr_spec mrs e n :
  0 ≤ shr_m mrs →
  shr_m (shr mrs e n).1 = shr_m mrs / 2 ^ Z.max 0 n ∧
  (shr mrs e n).2 = e + Z.max 0 n.
Proof.
  intros Hm. destruct n as [|p|p]; cbn [shr fst snd].
  - rewrite Z.div_1_r. lia.
  - rewrite iter_shr_1_m by exact Hm.
    replace (Z.max 0 (Z.pos p)) with (Z.pos p) by lia. split; reflexivity.
  - replace (Z.max 0 (Z.neg p)) with 0 by lia. rewrite Z.div_1_r. lia.
Qed.

Lemma shr_fexp_spec m e l :
  0 < m → -125 ≤ Zdigits2 m + e →
  shr_m (shr_fexp F32.prec F32.emax m e l).1 = m / 2 ^ Z.max 0 (Zdigits2 m - 24) ∧
  (shr_fexp F32.prec F32.emax m e l).2 = e + Z.max 0 (Zdigits2 m - 24).
Proof.
  intros Hm He. unfold shr_fexp.
  replace (fexp F32.prec F32.emax (Zdigits2 m + e) - e) with (Zdigits2 m - 24)
    by (unfold fexp, emin, F32.prec, F32.emax; lia).
  assert (Hl : shr_m (shr_record_of_loc m l) = m) by (destruct l as [|[]]; reflexivity).
  destruct (shr_spec (shr_record_of_loc m l) e (Zdigits2 m - 24)) as [H1 H2];
    [lia|]. rewrite Hl in H1. split; assumption.
Qed.

(** Cutting a mantissa of 24 bits or more down to 24 bits leaves a
    mantissa of 24 bits. *)
Lemma cut_to_24_bits m :
  2 ^ 23 ≤ m → 2 ^ 23 ≤ m / 2 ^ Z.max 0 (Zdigits2 m - 24) < 2 ^ 24.
Proof.
  intros Hm.
  assert (Hd : 24 ≤ Zdigits2 m) by (apply (Zdigits2_ge m 23); lia).
  destruct (Zdigits2_bounds m) as [Hlo Hhi]; [lia|].
  replace (Z.max 0 (Zdigits2 m - 24)) with (Zdigits2 m - 24) by lia.
  set (k := Zdigits2 m - 24) in *.
  assert (Hk : 0 < 2 ^ k) by (apply Z.pow_pos_nonneg; lia).
  replace (Zdigits2 m - 1) with (23 + k) in Hlo by lia.
  replace (Zdigits2 m) with (24 + k) in Hhi by lia.
  rewrite Z.pow_add_r in Hlo, Hhi by lia.
  split.
  - apply Z.div_le_lower_bound; lia.
  - apply Z.div_lt_upper_bound; lia.
Qed.

Lemma round_nearest_even_bounds mx lx :
  mx ≤ round_nearest_even mx lx ≤ mx + 1.
Proof.
  destruct lx as [|[]]; cbn [round_nearest_even]; try lia.
  destruct (Z.even mx); lia.
Qed.

Lemma full_weaken sx e e' x : e' ≤ e → full sx e x → full sx e' x.
Proof. destruct x; cbn [full]; intuition lia. Qed.

Lemma binary_round_aux_full sx m e :
  2 ^ 23 ≤ m → -23 ≤ e →
  full sx e (binary_round_aux F32.prec F32.emax sx m e loc_Exact).
Proof.
  intros Hm He. unfold binary_round_aux.
  assert (Hd : 24 ≤ Zdigits2 m) by (apply (Zdigits2_ge m 23); lia).
  destruct (shr_fexp_spec m e loc_Exact) as [Hm1 He1]; [lia..|].
  destruct (shr_fexp F32.prec F32.emax m e loc_Exact) as [mrs1 e1].
  cbn [fst snd] in Hm1, He1.
  pose proof (cut_to_24_bits m Hm) as Hcut. rewrite <- Hm1 in Hcut.
  pose proof (round_nearest_even_bounds (shr_m mrs1) (loc_of_shr_record mrs1)) as Hr.
  set (m2 := round_nearest_even _ _) in *.
  assert (Hm2 : 2 ^ 23 ≤ m2) by lia.
  assert (Hd2 : 24 ≤ Zdigits2 m2) by (apply (Zdigits2_ge m2 23); lia).
  destruct (shr_fexp_spec m2 e1 loc_Exact) as [Hm3 He3]; [lia..|].
  destruct (shr_fexp F32.prec F32.emax m2 e1 loc_Exact) as [mrs3 e3].
  cbn [fst snd] in Hm3, He3.
  pose proof (cut_to_24_bits m2 Hm2) as Hcut3. rewrite <- Hm3 in Hcut3.
  destruct (shr_m mrs3) as [|m3|m3]; try lia.
  destruct (e3 <=? F32.emax - F32.prec); cbn [full]; [|reflexivity].
  repeat split; lia.
Qed.

Lemma iter_xO p k : Z.pos (Pos.iter xO p k) = Z.pos p * 2 ^ Z.pos k.
Proof.
  induction k as [|k IH] using Pos.peano_ind.
  - cbn [Pos.iter]. lia.
  - rewrite Pos.iter_succ, Pos2Z.inj_xO, IH, Pos2Z.inj_succ, Z.pow_succ_r by lia.
    ring.
Qed.

(** A positive integer converts to a positive float32 that is at least 1. *)
Lemma of_int_positive p : full false (-23) (F32.of_int (Z.pos p)).
Proof.
  unfold F32.of_int, IEEE.of_int, binary_normalize, binary_round, shl_align.
  destruct (Zdigits2_bounds (Z.pos p)) as [Hlo Hhi]; [lia|].
  cbn [Zdigits2] in Hlo, Hhi. set (d := Z.pos (digits2_pos p)) in *.
  assert (Hd : 1 ≤ d) by (subst d; lia).
  replace (fexp F32.prec F32.emax (d + 0) - 0) with (d - 24)
    by (unfold fexp, emin, F32.prec, F32.emax; lia).
  replace (fexp F32.prec F32.emax (d + 0)) with (d - 24)
    by (unfold fexp, emin, F32.prec, F32.emax; lia).
  assert (Hmz : ∀ k, d - 24 = Z.neg k → 2 ^ 23 ≤ Z.pos (Pos.iter xO p k)).
  { intros k Hk. rewrite iter_xO.
    replace 23 with ((d - 1) + Z.pos k) by lia.
    rewrite Z.pow_add_r by lia.
    apply Z.mul_le_mono_nonneg_r; [apply Z.pow_nonneg|]; lia. }
  destruct (d - 24) as [|k|k] eqn:Hk.
  - apply (full_weaken false 0); [lia|].
    apply binary_round_aux_full; [|lia].
    replace (d - 1) with 23 in Hlo by lia. exact Hlo.
  - apply (full_weaken false 0); [lia|].
    apply binary_round_aux_full; [|lia].
    assert (2 ^ 23 ≤ 2 ^ (d - 1)) by (apply Z.pow_le_mono_r; lia). lia.
  - apply (full_weaken false (Z.neg k)); [lia|].
    apply binary_round_aux_full; [|lia].
    apply Hmz. reflexivity.
Qed.

Lemma epsilon_bits : epsilon = S754_finite false 8589935 (-33).
Proof. vm_compute. reflexivity. Qed.

Lemma gt_epsilon_full x : full false (-23) x → F32.gt x epsilon = true.
Proof.
  rewrite epsilon_bits. unfold F32.gt, IEEE.gt, SFltb, SFcompare.
  destruct x as [| [] | | [] m e]; cbn [full]; try tauto; try discriminate;
    try (intros (? & _); discriminate).
  intros (_ & _ & He).
  destruct (Z.compare_spec (-33) e); [lia | reflexivity | lia].
Qed.

Lemma to_int_full x : full false (-23) x → F32.to_int x ≠ 0.
Proof.
  unfold F32.to_int, IEEE.to_int, IEEE.trunc.
  destruct x as [| s | | s m e]; cbn [full]; try tauto; try discriminate.
  intros (-> & Hm & He). cbn [cond_Zopp].
  assert (1 ≤ Z.shiftl (Z.pos m) e).
  { destruct (Z.le_gt_cases 0 e).
    - rewrite Z.shiftl_mul_pow2 by lia.
      pose proof (Z.pow_pos_nonneg 2 e). nia.
    - rewrite <- Z.shiftr_opp_r, Z.shiftr_div_pow2 by lia.
      apply Z.div_le_lower_bound; [apply Z.pow_pos_nonneg; lia|].
      assert (2 ^ (- e) ≤ 2 ^ 23) by (apply Z.pow_le_mono_r; lia). lia. }
  destruct (Int64.in_range _); [lia | discriminate].
Qed.

Lemma binary_round_aux_sign sx m e l :
  match binary_round_aux F32.prec F32.emax sx m e l with
  | S754_zero s | S754_infinity s | S754_finite s _ _ => s = sx
  | S754_nan => True
  end.
Proof.
  unfold binary_round_aux.
  destruct (shr_fexp F32.prec F32.emax m e l) as [mrs1 e1].
  destruct (shr_fexp F32.prec F32.emax _ e1 loc_Exact) as [mrs2 e2].
  destruct (shr_m mrs2); [reflexivity | | exact I].
  destruct (e2 <=? F32.emax - F32.prec); reflexivity.
Qed.

(** The epsilon test of [updateSplitter] on a weight that was an
    integer: it passes exactly the positive ones. *)
Lemma gt_epsilon_of_int n :
  F32.gt (F32.of_int n) epsilon = (1 <=? n).
Proof.
  destruct n as [|p|p].
  - vm_compute. reflexivity.
  - rewrite gt_epsilon_full by apply of_int_positive.
    symmetry. apply Z.leb_le. lia.
  - replace (1 <=? Z.neg p) with false by (symmetry; apply Z.leb_gt; lia).
    rewrite epsilon_bits.
    unfold F32.of_int, IEEE.of_int, binary_normalize, binary_round.
    destruct (shl_align _ _ _) as [mz ez].
    pose proof (binary_round_aux_sign true (Z.pos mz) ez loc_Exact) as Hs.
    destruct (binary_round_aux _ _ _ _ _ _); subst; reflexivity.
Qed.

End Binary32.


(** ** What the write path can store *)

Section WritePath.
Variable canary : Canary.

(** The weights that [GetRoutes] resolves from what [SetRoutes] wrote. *)
Lemma scanSplits_written (p q : Z) :
  scanSplits
    ((if F32.gt (F32.of_int p) epsilon then [split canary "primary" p] else []) ++
     (if F32.gt (F32.of_int q) epsilon then [split canary "canary" q] else []))
  = (if 1 <=? p then F32.to_int (F32.of_int p) else 0,
     if 1 <=? q then F32.to_int (F32.of_int q) else 0).
Proof.
  rewrite !gt_epsilon_of_int.
  destruct (1 <=? p), (1 <=? q); reflexivity.
Qed.

Lemma to_int_of_int_positive n : 1 ≤ n → F32.to_int (F32.of_int n) ≠ 0.
Proof.
  intros Hn. destruct n as [|p|p]; try lia.
  apply to_int_full, of_int_positive.
Qed.

(** Weights in percent survive the conversion to float32 and back. *)
Lemma to_int_of_int_percent n :
  0 ≤ n ≤ 100 → F32.to_int (F32.of_int n) = n.
Proof.
  intros Hn.
  assert (Hall : forallb (λ k, F32.to_int (F32.of_int (Z.of_nat k)) =? Z.of_nat k)
                   (seq 0 101) = true) by (vm_compute; reflexivity).
  rewrite forallb_forall in Hall.
  specialize (Hall (Z.to_nat n)). rewrite Z2Nat.id in Hall by lia.
  apply Z.eqb_eq, Hall, in_seq. lia.
Qed.

(** The round trip for every pair of percentages that are not both zero. *)
Lemma SetRoutes_GetRoutes_percent (p q : Z) (m : bool) (w : Consul.t) :
  Consul.behaviour w (Consul.Set_ ServiceSplitter) = Consul.Served →
  Consul.behaviour w (Consul.Get ServiceSplitter) = Consul.Served →
  0 ≤ p ≤ 100 → 0 ≤ q ≤ 100 → 1 ≤ p ∨ 1 ≤ q →
  (GetRoutes canary (SetRoutes canary p q m w).2).1 =
    {| primaryWeight := p; canaryWeight := q; mirrored := false; err := None |}.
Proof.
  intros Hset Hget Hp Hq Hpq.
  rewrite (SetRoutes_served canary p q m w _ Hset eq_refl). cbn [snd].
  rewrite GetRoutes_after_store by exact Hget.
  rewrite scanSplits_written, !to_int_of_int_percent by assumption.
  replace (if 1 <=? p then p else 0) with p by (destruct (Z.leb_spec 1 p); lia).
  replace (if 1 <=? q then q else 0) with q by (destruct (Z.leb_spec 1 q); lia).
  destruct (Z.eqb_spec p 0), (Z.eqb_spec q 0); try reflexivity. lia.
Qed.

(** C2, as amended.  For every pair of weights of which at least one is
    positive, the split that [SetRoutes] hands to the agent -- its one
    call, a write -- is one from which the primary and the canary weight
    do not both resolve to zero.  An agent that serves the write stores
    that split, and [GetRoutes], when served, then returns no error. *)
Theorem C2_a_positive_weight_is_stored (p q : Z) (m : bool) (w : Consul.t) :
  1 ≤ p ∨ 1 ≤ q →
  let w' := (SetRoutes canary p q m w).2 in
  ∃ s,
    Consul.journal w' = Consul.journal w ++ [Consul.ConfigSet (Splitter s)] ∧
    scanSplits (ServiceSplitterConfigEntry.Splits s) ≠ (0, 0) ∧
    (Consul.behaviour w (Consul.Set_ ServiceSplitter) = Consul.Served →
     Consul.entries w' !! splitterKey canary = Some (Splitter s) ∧
     (Consul.behaviour w (Consul.Get ServiceSplitter) = Consul.Served →
      err (GetRoutes canary w').1 = None)).
Proof.
  intros Hpq. cbv zeta.
  eexists. split; [apply updateSplitter_journal|].
  cbn [ServiceSplitterConfigEntry.Splits].
  assert (Hne : scanSplits
    ((if F32.gt (F32.of_int p) epsilon then [split canary "primary" p] else []) ++
     (if F32.gt (F32.of_int q) epsilon then [split canary "canary" q] else []))
    ≠ (0, 0)).
  { rewrite scanSplits_written. intros [= Hp Hq].
    destruct Hpq as [H1|H1]; pose proof (to_int_of_int_positive _ H1) as Hnz;
      apply Z.leb_le in H1; rewrite H1 in *; contradiction. }
  split; [exact Hne|].
  intros Hset.
  rewrite (SetRoutes_served canary p q m w _ Hset eq_refl). cbn [snd].
  split; [apply (store_lookup (splitterOf canary _))|].
  intros Hget. rewrite GetRoutes_after_store by exact Hget.
  destruct (scanSplits _) as [pw cw]. cbn [err].
  destruct (Z.eqb_spec pw 0), (Z.eqb_spec cw 0); try reflexivity.
  subst. contradiction.
Qed.

End WritePath.

(** C2, as stated, fails: [SetRoutes(0, 0, false)] hands the agent a split
    with no entry at all and returns no error when the agent serves the
    write; both weights resolve to zero from the split then stored, which
    [GetRoutes] reports as an error. *)
Lemma C2_zero_weights_store_the_empty_split :
  let '(e, w) := SetRoutes Demo.canary 0 0 false Demo.fresh in
  e = None ∧
  Consul.journal w = [Consul.ConfigSet (splitterOf Demo.canary [])] ∧
  ∃ s,
    Consul.entries w !! splitterKey Demo.canary = Some (Splitter s) ∧
    scanSplits (ServiceSplitterConfigEntry.Splits s) = (0, 0) ∧
    err (GetRoutes Demo.canary w).1 = Some (NoRoutes "podinfo" "test").
Proof.
  rewrite (SetRoutes_served Demo.canary 0 0 false Demo.fresh []);
    [| reflexivity | vm_compute; reflexivity].
  split; [reflexivity|]. split; [reflexivity|].
  eexists. split; [apply (store_lookup (splitterOf Demo.canary []))|].
  split; [reflexivity|].
  rewrite GetRoutes_after_store by reflexivity. reflexivity.
Qed.

(** ** The claims on concrete agents *)

Lemma C1_witness :
  Consul.behaviour Demo.fresh (Consul.Set_ ServiceSplitter) = Consul.Served ∧
  Consul.behaviour Demo.fresh (Consul.Get ServiceSplitter) = Consul.Served ∧
  let '(e1, w1) := SetRoutes Demo.canary 90 10 false Demo.fresh in
  let '(r1, w2) := GetRoutes Demo.canary w1 in
  let '(e2, w3) := SetRoutes Demo.canary 100 0 false w2 in
  let '(r2, _) := GetRoutes Demo.canary w3 in
  e1 = None ∧
  r1 = {| primaryWeight := 90; canaryWeight := 10; mirrored := false; err := None |} ∧
  e2 = None ∧
  r2 = {| primaryWeight := 100; canaryWeight := 0; mirrored := false; err := None |} ∧
  Consul.entries w3 !! splitterKey Demo.canary =
    Some (splitterOf Demo.canary [split Demo.canary "primary" 100]).
Proof.
  split; [reflexivity|]. split; [reflexivity|].
  apply (C1_set_then_get_round_trip Demo.canary Demo.fresh); reflexivity.
Defined.

Lemma C2_witness :
  (1 ≤ 0 ∨ 1 ≤ 5) ∧
  let w' := (SetRoutes Demo.canary 0 5 false Demo.fresh).2 in
  ∃ s,
    Consul.journal w' = Consul.journal Demo.fresh ++ [Consul.ConfigSet (Splitter s)] ∧
    scanSplits (ServiceSplitterConfigEntry.Splits s) ≠ (0, 0) ∧
    (Consul.behaviour Demo.fresh (Consul.Set_ ServiceSplitter) = Consul.Served →
     Consul.entries w' !! splitterKey Demo.canary = Some (Splitter s) ∧
     (Consul.behaviour Demo.fresh (Consul.Get ServiceSplitter) = Consul.Served →
      err (GetRoutes Demo.canary w').1 = None)).
Proof.
  split; [right; lia|].
  apply (C2_a_positive_weight_is_stored Demo.canary 0 5 false Demo.fresh).
  right; lia.
Defined.

Lemma C3_witness :
  Consul.behaviour Demo.foreign (Consul.Get ServiceSplitter) = Consul.Served ∧
  Consul.entries Demo.foreign !! splitterKey Demo.canary =
    Some (splitterOf Demo.canary [split Demo.canary "blue" 100]) ∧
  (GetRoutes Demo.canary Demo.foreign).1 =
    {| primaryWeight := 0; canaryWeight := 0; mirrored := false;
       err := Some (NoRoutes "podinfo" "test") |}.
Proof.
  split; [reflexivity|]. split; [apply lookup_singleton_eq|].
  apply (C3_no_routes_is_an_error Demo.canary Demo.foreign
           {| ServiceSplitterConfigEntry.Kind := ServiceSplitter;
              ServiceSplitterConfigEntry.Name := "podinfo";
              ServiceSplitterConfigEntry.Splits := [split Demo.canary "blue" 100] |}).
  - reflexivity.
  - apply lookup_singleton_eq.
  - intros sp Hin. apply list_elem_of_singleton in Hin. subst sp.
    split; discriminate.
Defined.


Lemma C6_witness :
  Consul.behaviour Demo.halfway_unreadable (Consul.Get ServiceSplitter) ≠ Consul.Served ∧
  Consul.behaviour Demo.halfway_unreadable (Consul.Set_ ServiceResolver) = Consul.Served ∧
  Consul.behaviour Demo.halfway_unreadable (Consul.Set_ ServiceSplitter) = Consul.Served ∧
  (reconcileSplitter Demo.canary Demo.halfway_unreadable).1 = None ∧
  let w' := (Reconcile Demo.canary Demo.halfway_unreadable).2 in
  (Reconcile Demo.canary Demo.halfway_unreadable).1 = None ∧
  Consul.entries w' !! splitterKey Demo.canary = Some (bootstrap Demo.canary).
Proof.
  assert (Hget : Consul.behaviour Demo.halfway_unreadable (Consul.Get ServiceSplitter)
                 ≠ Consul.Served) by discriminate.
  split; [exact Hget|]. split; [reflexivity|]. split; [reflexivity|].
  destruct (C6_bootstrap_on_any_read_error Demo.canary Demo.halfway_unreadable
              Hget eq_refl eq_refl) as (Hsplitter & Hnil & _ & Hstored).
  split; [rewrite Hsplitter; reflexivity|]. split; assumption.
Defined.

Lemma C8_witness :
  observers.GetRequestDuration Demo.verbatim
    (client := Demo.answering (F64.of_int 250)) tt = (250000000, None).
Proof.
  apply (C8_duration_in_milliseconds Demo.verbatim
           (client := Demo.answering (F64.of_int 250)) tt
           (observers.index observers.connectQueries "request-duration"));
    reflexivity.
Defined.

Lemma C10_witness :
  F64.of_ratio 2509 10 = S754_finite false 8827758957087949 (-45) ∧
  valid_binary F64.prec F64.emax (F64.of_ratio 2509 10) = true ∧
  observers.GetRequestDuration Demo.verbatim
    (client := Demo.answering (F64.of_ratio 2509 10)) tt = (250000000, None).
Proof.
  split; [vm_compute; reflexivity|]. split; [vm_compute; reflexivity|].
  apply (C10_duration_truncates Demo.verbatim
           (client := Demo.answering (F64.of_ratio 2509 10)) tt
           (observers.index observers.connectQueries "request-duration")
           false 8827758957087949 (-45)).
  - reflexivity.
  - vm_compute. reflexivity.
  - vm_compute. reflexivity.
  - lia.
Defined.

(** ** Integers that float32 holds exactly *)

Section Exact.

Lemma Zdigits2_unique m k :
  0 < k → 2 ^ (k - 1) ≤ m < 2 ^ k → Zdigits2 m = k.
Proof.
  intros Hk Hm.
  assert (0 < m) by (pose proof (Z.pow_pos_nonneg 2 (k - 1)); lia).
  rewrite Zdigits2_log2 by assumption.
  rewrite (Z.log2_unique m (k - 1)); [lia | lia |].
  replace (Z.succ (k - 1)) with k by lia. exact Hm.
Qed.

(** A mantissa of exactly 24 bits is not rounded. *)
Lemma binary_round_aux_exact sx (m : positive) e :
  Zdigits2 (Z.pos m) = 24 → -149 ≤ e ≤ 104 →
  binary_round_aux F32.prec F32.emax sx (Z.pos m) e loc_Exact = S754_finite sx m e.
Proof.
  intros Hd He.
  assert (Hshr : shr_fexp F32.prec F32.emax (Z.pos m) e loc_Exact =
                 ({| shr_m := Z.pos m; shr_r := false; shr_s := false |}, e)).
  { unfold shr_fexp. rewrite Hd.
    replace (fexp F32.prec F32.emax (24 + e) - e) with 0
      by (unfold fexp, emin, F32.prec, F32.emax; lia).
    reflexivity. }
  unfold binary_round_aux. rewrite Hshr.
  cbn [shr_m loc_of_shr_record round_nearest_even]. rewrite Hshr. cbn [shr_m].
  replace (e <=? F32.emax - F32.prec) with true
    by (symmetry; apply Z.leb_le; unfold F32.emax, F32.prec; lia).
  reflexivity.
Qed.

(** Below 2^24 the conversion of a positive integer shifts it into a full
    mantissa and loses nothing. *)
Lemma binary_round_small sx (p : positive) :
  Z.pos p < 2 ^ 24 →
  ∃ m e, binary_round F32.prec F32.emax sx p 0 = S754_finite sx m e ∧
         -23 ≤ e ≤ 0 ∧ Z.pos m = Z.pos p * 2 ^ (- e).
Proof.
  intros Hp. unfold binary_round, shl_align.
  destruct (Zdigits2_bounds (Z.pos p)) as [Hlo Hhi]; [lia|].
  cbn [Zdigits2] in Hlo, Hhi. set (d := Z.pos (digits2_pos p)) in *.
  assert (Hd : 1 ≤ d ≤ 24).
  { split; [subst d; lia|].
    destruct (Z.le_gt_cases d 24) as [|Hgt]; [assumption|].
    assert (2 ^ 24 ≤ 2 ^ (d - 1)) by (apply Z.pow_le_mono_r; lia). lia. }
  replace (fexp F32.prec F32.emax (d + 0) - 0) with (d - 24)
    by (unfold fexp, emin, F32.prec, F32.emax; lia).
  replace (fexp F32.prec F32.emax (d + 0)) with (d - 24)
    by (unfold fexp, emin, F32.prec, F32.emax; lia).
  destruct (d - 24) as [|k|k] eqn:Hk; [| lia |].
  - exists p, 0. rewrite binary_round_aux_exact.
    + split; [reflexivity|]. split; [lia|]. cbn. lia.
    + cbn [Zdigits2]. fold d. lia.
    + lia.
  - exists (Pos.iter xO p k), (Z.neg k).
    assert (Hmz : Z.pos (Pos.iter xO p k) = Z.pos p * 2 ^ Z.pos k) by apply iter_xO.
    rewrite binary_round_aux_exact.
    + split; [reflexivity|]. split; [lia|]. exact Hmz.
    + apply Zdigits2_unique; [lia|]. rewrite Hmz.
      assert (Hpow : 0 < 2 ^ Z.pos k) by (apply Z.pow_pos_nonneg; lia).
      assert (H23 : 2 ^ (24 - 1) = 2 ^ (d - 1) * 2 ^ Z.pos k)
        by (rewrite <- Z.pow_add_r by lia; f_equal; lia).
      assert (H24 : 2 ^ 24 = 2 ^ d * 2 ^ Z.pos k)
        by (rewrite <- Z.pow_add_r by lia; f_equal; lia).
      rewrite H23, H24. split.
      * apply Z.mul_le_mono_nonneg_r; lia.
      * apply Z.mul_lt_mono_pos_r; lia.
    + lia.
Qed.

(** Integers of magnitude below 2^24 survive the conversion to float32
    and back. *)
Lemma to_int_of_int_exact n :
  - 2 ^ 24 < n < 2 ^ 24 → F32.to_int (F32.of_int n) = n.
Proof.
  intros Hn.
  assert (Hback : ∀ sx (p : positive), Z.pos p < 2 ^ 24 →
            F32.to_int (binary_round F32.prec F32.emax sx p 0) = cond_Zopp sx (Z.pos p)).
  { intros sx p Hp.
    destruct (binary_round_small sx p Hp) as (m & e & -> & He & Hm).
    unfold F32.to_int, IEEE.to_int, IEEE.trunc.
    assert (Hsh : Z.shiftl (Z.pos m) e = Z.pos p).
    { rewrite <- Z.shiftr_opp_r, Z.shiftr_div_pow2, Hm by lia.
      apply Z.div_mul. apply Z.pow_nonzero; lia. }
    rewrite Hsh.
    replace (Int64.in_range (cond_Zopp sx (Z.pos p))) with true; [reflexivity|].
    symmetry. unfold Int64.in_range, Int64.min_int, Int64.max_int.
    apply andb_true_intro. split; apply Z.leb_le; destruct sx; cbn [cond_Zopp]; lia. }
  destruct n as [|p|p].
  - reflexivity.
  - apply (Hback false). lia.
  - apply (Hback true). lia.
Qed.

End Exact.

(** ** More on reading the split *)

Section Reading.
Variable canary : Canary.

(** What [GetRoutes] returns depends on the agent through the answer to
    the read and the entry under the key of the split alone. *)
Lemma GetRoutes_depends w w' :
  Consul.behaviour w (Consul.Get ServiceSplitter) =
    Consul.behaviour w' (Consul.Get ServiceSplitter) →
  Consul.entries w !! splitterKey canary = Consul.entries w' !! splitterKey canary →
  (GetRoutes canary w).1 = (GetRoutes canary w').1.
Proof.
  intros Hb He. unfold GetRoutes, GetServiceNames. cbv beta iota.
  unfold mbind, M_bind, ConfigEntries_Get.
  cbn [Consul.behaviour Consul.entries Consul.record].
  fold (splitterKey canary). rewrite Hb, He.
  destruct (Consul.behaviour w' _); try reflexivity.
  destruct (Consul.entries w' !! splitterKey canary) as [[r|s|k n]|]; try reflexivity.
  destruct (scanSplits _); reflexivity.
Qed.

(** X1.  When the read of the split yields no entry -- the agent does not
    serve it, or serves it and holds none under the apex name --
    [GetRoutes] returns the zero weights with the error "Service splitter
    not found", wrapping the client's error: no such entry, or
    unavailable. *)
Theorem GetRoutes_without_split (w : Consul.t) :
  (Consul.behaviour w (Consul.Get ServiceSplitter) = Consul.Served →
   Consul.entries w !! splitterKey canary = None) →
  (GetRoutes canary w).1 =
    {| primaryWeight := 0; canaryWeight := 0; mirrored := false;
       err := Some (SplitterNotFound (apexName canary) (Namespace canary)
                      match Consul.behaviour w (Consul.Get ServiceSplitter) with
                      | Consul.Served => NoSuchEntry ServiceSplitter (apexName canary)
                      | _ => Unavailable
                      end) |}.
Proof.
  intros Hnone. unfold GetRoutes, GetServiceNames. cbv beta iota.
  unfold mbind, M_bind, ConfigEntries_Get.
  cbn [Consul.behaviour Consul.entries Consul.record].
  fold (splitterKey canary).
  destruct (Consul.behaviour w _); try reflexivity.
  rewrite Hnone by reflexivity. reflexivity.
Qed.

(** X2.  When the agent serves the read and what it holds under the key of
    the split is not a splitter, [GetRoutes] returns the zero weights with
    the error "Bad service splitter". *)
Theorem GetRoutes_wrong_type (w : Consul.t) (e : ConfigEntry) :
  Consul.behaviour w (Consul.Get ServiceSplitter) = Consul.Served →
  Consul.entries w !! splitterKey canary = Some e →
  (∀ s, e ≠ Splitter s) →
  (GetRoutes canary w).1 =
    {| primaryWeight := 0; canaryWeight := 0; mirrored := false;
       err := Some (BadSplitter (apexName canary) (Namespace canary)) |}.
Proof.
  intros Hget He Hne. unfold GetRoutes, GetServiceNames. cbv beta iota.
  unfold mbind, M_bind, ConfigEntries_Get.
  cbn [Consul.behaviour Consul.entries Consul.record].
  fold (splitterKey canary). rewrite Hget, He.
  destruct e as [r|s|k n]; try reflexivity.
  destruct (Hne s). reflexivity.
Qed.

(** X3.  [GetRoutes] only reads: it makes one call, the get of the split,
    leaves the entries of the agent as they are, and on every path
    reports [mirrored] as false. *)
Theorem GetRoutes_only_reads (w : Consul.t) :
  let '(r, w') := GetRoutes canary w in
  Consul.entries w' = Consul.entries w ∧
  Consul.journal w' =
    Consul.journal w ++ [Consul.ConfigGet ServiceSplitter (apexName canary)] ∧
  mirrored r = false.
Proof.
  pose proof (GetRoutes_reads canary w) as Hw.
  assert (Hm : mirrored (GetRoutes canary w).1 = false).
  { unfold GetRoutes, GetServiceNames. cbv beta iota.
    unfold mbind, M_bind, ConfigEntries_Get.
    destruct (Consul.behaviour _ _); try reflexivity.
    destruct (Consul.entries _ !! _) as [[r|s|k n]|]; try reflexivity.
    destruct (scanSplits _); reflexivity. }
  destruct (GetRoutes canary w) as [r w']. cbn [fst snd] in *. subst w'.
  repeat split; [reflexivity.. | exact Hm].
Qed.

Lemma scanSplits_snoc splits sp :
  scanSplits (splits ++ [sp]) = scanSplit (scanSplits splits) sp.
Proof. unfold scanSplits. rewrite fold_left_app. reflexivity. Qed.

Lemma lastWeight_snoc subset splits sp :
  lastWeight subset (splits ++ [sp]) =
    if String.eqb (ServiceSplit.ServiceSubset sp) subset
    then F32.to_int (ServiceSplit.Weight sp)
    else lastWeight subset splits.
Proof.
  unfold lastWeight. rewrite filter_app, filter_cons, filter_nil.
  destruct (String.eqb_spec (ServiceSplit.ServiceSubset sp) subset) as [Heq|Hne].
  - rewrite decide_True by exact Heq. rewrite last_snoc. reflexivity.
  - rewrite decide_False by exact Hne. rewrite app_nil_r. reflexivity.
Qed.

Lemma scanSplits_lastWeight splits :
  scanSplits splits = (lastWeight "primary" splits, lastWeight "canary" splits).
Proof.
  induction splits as [|sp splits IH] using rev_ind; [reflexivity|].
  rewrite scanSplits_snoc, IH, !lastWeight_snoc. reflexivity.
Qed.

(** X4.  When a stored split names a subset more than once, [GetRoutes]
    goes by the last entry of that subset: the weights it returns are the
    truncated weights of the last [primary] and of the last [canary] entry
    of the list, zero for a subset without entry; entries of other
    subsets do not count. *)
Theorem GetRoutes_last_entry_wins (w : Consul.t) (s : ServiceSplitterConfigEntry.t) :
  Consul.behaviour w (Consul.Get ServiceSplitter) = Consul.Served →
  Consul.entries w !! splitterKey canary = Some (Splitter s) →
  primaryWeight (GetRoutes canary w).1 =
    lastWeight "primary" (ServiceSplitterConfigEntry.Splits s) ∧
  canaryWeight (GetRoutes canary w).1 =
    lastWeight "canary" (ServiceSplitterConfigEntry.Splits s).
Proof.
  intros Hget Hs. rewrite (GetRoutes_served canary s w Hget Hs).
  rewrite scanSplits_lastWeight. split; reflexivity.
Qed.

Lemma to_int_belowOne x : belowOne x → F32.to_int x = 0.
Proof.
  unfold F32.to_int, IEEE.to_int, IEEE.trunc.
  destruct x as [s| s | |s m e]; cbn [belowOne]; intros Hm;
    try contradiction; try reflexivity.
  assert (He : e < 0).
  { destruct (Z.lt_ge_cases e 0) as [|Hge]; [assumption|].
    destruct (Z.eq_dec e 0) as [->|]; [cbn in Hm; lia|].
    rewrite Z.pow_neg_r in Hm by lia. lia. }
  assert (Hz : Z.shiftl (Z.pos m) e = 0).
  { rewrite <- Z.shiftr_opp_r, Z.shiftr_div_pow2 by lia.
    apply Z.div_small. lia. }
  rewrite Hz. destruct s; reflexivity.
Qed.

Lemma lastWeight_belowOne subset splits :
  (∀ sp, sp ∈ splits → belowOne (ServiceSplit.Weight sp)) →
  lastWeight subset splits = 0.
Proof.
  induction splits as [|sp splits IH] using rev_ind; intros Hall; [reflexivity|].
  rewrite lastWeight_snoc.
  destruct (String.eqb _ _).
  - apply to_int_belowOne, Hall. set_solver.
  - apply IH. intros sp' Hin. apply Hall. set_solver.
Qed.

(** X5.  The weights read are truncated to integers before the test for
    "no routes": a stored split all of whose weights are of magnitude
    below one -- a half for each subset, say -- is reported as containing
    no routes, with the zero weights. *)
Theorem GetRoutes_fractions_are_no_routes (w : Consul.t) (s : ServiceSplitterConfigEntry.t) :
  Consul.behaviour w (Consul.Get ServiceSplitter) = Consul.Served →
  Consul.entries w !! splitterKey canary = Some (Splitter s) →
  (∀ sp, sp ∈ ServiceSplitterConfigEntry.Splits s → belowOne (ServiceSplit.Weight sp)) →
  (GetRoutes canary w).1 =
    {| primaryWeight := 0; canaryWeight := 0; mirrored := false;
       err := Some (NoRoutes (apexName canary) (Namespace canary)) |}.
Proof.
  intros Hget Hs Hall. rewrite (GetRoutes_served canary s w Hget Hs).
  rewrite scanSplits_lastWeight, !lastWeight_belowOne by exact Hall.
  reflexivity.
Qed.

End Reading.

(** ** More on writing the split *)

Section Writing.
Variable canary : Canary.

(** [SetRoutes] on every agent and for all integer weights. *)
Lemma SetRoutes_run (p q : Z) (m : bool) (w : Consul.t) :
  let entry := splitterOf canary (splitsFor canary p q) in
  let w1 := Consul.record (Consul.ConfigSet entry) w in
  SetRoutes canary p q m w =
    match Consul.behaviour w (Consul.Set_ ServiceSplitter) with
    | Consul.Served => (None, Consul.store entry w1)
    | Consul.Declined => (None, w1)
    | Consul.Failed =>
        (Some (NotAbleToSetSplitter (apexName canary) (Namespace canary) Unavailable), w1)
    end.
Proof.
  unfold SetRoutes, updateSplitter, GetServiceNames, splitsFor, split. cbv beta iota zeta.
  rewrite !gt_epsilon_of_int.
  unfold mbind, M_bind, ConfigEntries_Set.
  cbn [Consul.behaviour Consul.record GetKind ServiceSplitterConfigEntry.Kind].
  destruct (1 <=? p), (1 <=? q);
    destruct (Consul.behaviour w (Consul.Set_ ServiceSplitter)); reflexivity.
Qed.

(** X6.  For all integer weights, the one call of [SetRoutes] is the write
    of a split with an entry for each weight that is at least 1, primary
    before canary, each holding that weight as a float32, and no entry for
    a weight that is zero or negative; it reads nothing beforehand. *)
Theorem SetRoutes_writes_the_positive_weights (p q : Z) (m : bool) (w : Consul.t) :
  Consul.journal (SetRoutes canary p q m w).2 =
    Consul.journal w ++
    [Consul.ConfigSet (splitterOf canary
       ((if 1 <=? p then [split canary "primary" p] else []) ++
        (if 1 <=? q then [split canary "canary" q] else [])))].
Proof.
  rewrite SetRoutes_run. cbv zeta.
  destruct (Consul.behaviour w _); reflexivity.
Qed.

(** X7.  When the agent does not serve the write, [SetRoutes] stores
    nothing.  It returns the error "Not able to set service splitter" when
    the call failed on the way, but no error when the agent answered the
    write with [false]: that answer is not looked at. *)
Theorem SetRoutes_unserved (p q : Z) (m : bool) (w : Consul.t) :
  Consul.behaviour w (Consul.Set_ ServiceSplitter) ≠ Consul.Served →
  let '(e, w') := SetRoutes canary p q m w in
  Consul.entries w' = Consul.entries w ∧
  e = match Consul.behaviour w (Consul.Set_ ServiceSplitter) with
      | Consul.Failed =>
          Some (NotAbleToSetSplitter (apexName canary) (Namespace canary) Unavailable)
      | _ => None
      end.
Proof.
  intros Hw. rewrite SetRoutes_run. cbv zeta.
  destruct (Consul.behaviour w _); [contradiction | split; reflexivity..].
Qed.

(** X8.  The write replaces the split wholesale: on an agent that serves
    it, [SetRoutes] after an earlier [SetRoutes] leaves the agent with the
    entries that the later call alone would have left; setting the same
    weights twice is setting them once. *)
Theorem SetRoutes_last_write_wins (p q p' q' : Z) (m m' : bool) (w : Consul.t) :
  Consul.behaviour w (Consul.Set_ ServiceSplitter) = Consul.Served →
  Consul.entries (SetRoutes canary p q m (SetRoutes canary p' q' m' w).2).2 =
    Consul.entries (SetRoutes canary p q m w).2.
Proof.
  intros Hw.
  rewrite (SetRoutes_run p' q' m' w). cbv zeta. rewrite Hw. cbn [snd].
  rewrite !SetRoutes_run. cbv zeta.
  cbn [Consul.behaviour Consul.store Consul.record]. rewrite Hw.
  cbn [snd Consul.entries Consul.store Consul.record GetKind GetName splitterOf
       ServiceSplitterConfigEntry.Kind ServiceSplitterConfigEntry.Name].
  apply insert_insert_eq.
Qed.

(** X9.  Rollout targets do not interfere: [SetRoutes] for one target
    changes nothing in what [GetRoutes] returns for a target with another
    apex name, whatever the agent answers. *)
Theorem SetRoutes_leaves_other_targets (other : Canary) (p q : Z) (m : bool)
    (w : Consul.t) :
  apexName canary ≠ apexName other →
  (GetRoutes other (SetRoutes canary p q m w).2).1 = (GetRoutes other w).1.
Proof.
  intros Hne. rewrite SetRoutes_run. cbv zeta.
  apply GetRoutes_depends;
    destruct (Consul.behaviour w (Consul.Set_ ServiceSplitter)); try reflexivity.
  cbn [snd Consul.entries Consul.store Consul.record GetKind GetName splitterOf
       ServiceSplitterConfigEntry.Kind ServiceSplitterConfigEntry.Name].
  apply lookup_insert_ne. unfold splitterKey. congruence.
Qed.

Lemma scanSplits_splitsFor (p q : Z) :
  scanSplits (splitsFor canary p q) =
    (if 1 <=? p then F32.to_int (F32.of_int p) else 0,
     if 1 <=? q then F32.to_int (F32.of_int q) else 0).
Proof. unfold splitsFor. destruct (1 <=? p), (1 <=? q); reflexivity. Qed.

(** What is read back after a write, for weights that float32 holds
    exactly. *)
Lemma GetRoutes_after_SetRoutes (p q : Z) (m : bool) (w : Consul.t) :
  Consul.behaviour w (Consul.Set_ ServiceSplitter) = Consul.Served →
  Consul.behaviour w (Consul.Get ServiceSplitter) = Consul.Served →
  p < 2 ^ 24 → q < 2 ^ 24 → 1 ≤ p ∨ 1 ≤ q →
  (GetRoutes canary (SetRoutes canary p q m w).2).1 =
    {| primaryWeight := Z.max 0 p; canaryWeight := Z.max 0 q;
       mirrored := false; err := None |}.
Proof.
  intros Hset Hget Hp Hq Hpq.
  rewrite SetRoutes_run. cbv zeta. rewrite Hset. cbn [snd].
  rewrite GetRoutes_after_store by exact Hget.
  rewrite scanSplits_splitsFor.
  assert (Hw : ∀ n, n < 2 ^ 24 →
            (if 1 <=? n then F32.to_int (F32.of_int n) else 0) = Z.max 0 n).
  { intros n Hn. destruct (Z.leb_spec 1 n); [|lia].
    rewrite to_int_of_int_exact by lia. lia. }
  rewrite !Hw by assumption.
  destruct (Z.eqb_spec (Z.max 0 p) 0), (Z.eqb_spec (Z.max 0 q) 0);
    try reflexivity. lia.
Qed.

(** X10.  The round trip for all weights that float32 holds exactly: on an
    agent that serves the write and the read, [GetRoutes] after
    [SetRoutes(p, q, m)] returns [(p, q, false)] without error for all
    weights from 0 to 2^24 - 1 that are not both zero; a negative weight
    reads back as zero. *)
Theorem SetRoutes_GetRoutes_round_trip (p q : Z) (m : bool) (w : Consul.t) :
  Consul.behaviour w (Consul.Set_ ServiceSplitter) = Consul.Served →
  Consul.behaviour w (Consul.Get ServiceSplitter) = Consul.Served →
  p < 2 ^ 24 → q < 2 ^ 24 → 1 ≤ p ∨ 1 ≤ q →
  (GetRoutes canary (SetRoutes canary p q m w).2).1 =
    {| primaryWeight := Z.max 0 p; canaryWeight := Z.max 0 q;
       mirrored := false; err := None |}.
Proof. exact (GetRoutes_after_SetRoutes p q m w). Qed.

End Writing.

(** ** More on reconciliation *)

Section Reconciling.
Variable canary : Canary.

Lemma world_eq (w w' : Consul.t) :
  Consul.entries w = Consul.entries w' →
  Consul.datacenters w = Consul.datacenters w' →
  Consul.behaviour w = Consul.behaviour w' →
  Consul.journal w = Consul.journal w' →
  w = w'.
Proof. destruct w, w'. cbn. intros -> -> -> ->. reflexivity. Qed.

(** One [Reconcile], on every agent: its result, the entries it leaves
    and the calls it makes. *)
Lemma Reconcile_spec (w : Consul.t) :
  Reconcile canary w =
    (reconcileResult canary w,
     {| Consul.entries := reconciledEntries canary w;
        Consul.datacenters := Consul.datacenters w;
        Consul.behaviour := Consul.behaviour w;
        Consul.journal := Consul.journal w ++ reconcileCalls canary w |}).
Proof.
  rewrite Reconcile_run, reconcileResolver_run. cbv zeta.
  destruct (afterDiscovery_frame w) as (Hb & He & _).
  assert (Hj : Consul.journal (afterDiscovery w) =
               Consul.journal w ++ Consul.CatalogDatacenters ::
                 match Consul.behaviour w Consul.Datacenters with
                 | Consul.Served => []
                 | _ => [Consul.Warnf "Failed to fetch dc list %v"]
                 end).
  { unfold afterDiscovery.
    destruct (Consul.behaviour w Consul.Datacenters);
      cbn [Consul.journal Consul.record]; rewrite <- ?app_assoc; reflexivity. }
  assert (Hd : Consul.datacenters (afterDiscovery w) = Consul.datacenters w).
  { unfold afterDiscovery. destruct (Consul.behaviour w Consul.Datacenters); reflexivity. }
  fold (reconciledResolver canary w).
  unfold reconcileResult, reconciledEntries, reconcileCalls.
  destruct (Consul.behaviour w (Consul.Set_ ServiceResolver)) eqn:Hres.
  2,3: f_equal; apply world_eq;
    cbn [Consul.entries Consul.datacenters Consul.behaviour Consul.journal Consul.record];
    [exact He | exact Hd | exact Hb | rewrite Hj, <- !app_assoc; reflexivity].
  set (w1 := Consul.store _ _).
  assert (Hb1 : Consul.behaviour w1 = Consul.behaviour w) by exact Hb.
  assert (He1 : Consul.entries w1 =
                <[resolverKey canary := reconciledResolver canary w]> (Consul.entries w)).
  { subst w1. cbn [Consul.entries Consul.store Consul.record]. rewrite He. reflexivity. }
  assert (Hd1 : Consul.datacenters w1 = Consul.datacenters w) by exact Hd.
  assert (Hj1 : Consul.journal w1 =
                Consul.journal w ++ Consul.CatalogDatacenters ::
                  match Consul.behaviour w Consul.Datacenters with
                  | Consul.Served => []
                  | _ => [Consul.Warnf "Failed to fetch dc list %v"]
                  end ++ [Consul.ConfigSet (reconciledResolver canary w)]).
  { subst w1. cbn [Consul.journal Consul.store Consul.record].
    rewrite Hj, <- !app_assoc. reflexivity. }
  assert (Hfound : (ConfigEntries_Get ServiceSplitter (apexName canary) w1).1 =
            match Consul.behaviour w (Consul.Get ServiceSplitter),
                  Consul.entries w !! splitterKey canary with
            | Consul.Served, Some e => inr e
            | Consul.Served, None => inl (NoSuchEntry ServiceSplitter (apexName canary))
            | _, _ => inl Unavailable
            end).
  { unfold ConfigEntries_Get. cbn [Consul.behaviour Consul.entries Consul.record].
    rewrite Hb1, He1. fold (splitterKey canary).
    rewrite lookup_insert_ne by discriminate.
    destruct (Consul.behaviour w (Consul.Get ServiceSplitter)); try reflexivity.
    destruct (Consul.entries w !! splitterKey canary); reflexivity. }
  clearbody w1.
  rewrite reconcileSplitter_run, Hfound. unfold splitFound.
  change (updateSplitter canary (F32.of_int 100) (F32.of_int 0))
    with (SetRoutes canary 100 0 false).
  rewrite SetRoutes_run. cbv zeta.
  change (splitterOf canary (splitsFor canary 100 0)) with (bootstrap canary).
  cbn [Consul.behaviour Consul.record]. rewrite Hb1.
  destruct (Consul.behaviour w (Consul.Get ServiceSplitter)).
  1: destruct (Consul.entries w !! splitterKey canary).
  2-4: destruct (Consul.behaviour w (Consul.Set_ ServiceSplitter)).
  all: f_equal; apply world_eq;
    cbn [Consul.entries Consul.datacenters Consul.behaviour Consul.journal
         Consul.record Consul.store GetKind GetName bootstrap splitterOf
         ServiceSplitterConfigEntry.Kind ServiceSplitterConfigEntry.Name];
    rewrite ?He1, ?Hj1; try assumption;
    repeat (rewrite <- ?app_assoc; cbn [app]); reflexivity.
Qed.

(** X11.  The calls of [Reconcile] come in one order on every agent: the
    catalog lookup, a warning if it was not served, the write of the
    resolver; then, only if that write was served and acknowledged, the
    read of the split; then, only if the read came back without an entry,
    the write of the split [primary: 100].  So no call about the split
    precedes the write of the resolver, and nothing follows a failed
    write. *)
Theorem Reconcile_calls_in_order (w : Consul.t) :
  Consul.journal (Reconcile canary w).2 = Consul.journal w ++ reconcileCalls canary w.
Proof. rewrite Reconcile_spec. reflexivity. Qed.

(** X12.  When the write of the resolver is not served, [Reconcile] stops:
    it returns "Failure during creation of service resolver" if the call
    failed on the way and "Not able to create service resolver" if the
    agent answered [false], leaves every entry as it was and makes no call
    about the split. *)
Theorem Reconcile_stops_at_the_resolver (w : Consul.t) :
  Consul.behaviour w (Consul.Set_ ServiceResolver) ≠ Consul.Served →
  let '(e, w') := Reconcile canary w in
  e = Some (match Consul.behaviour w (Consul.Set_ ServiceResolver) with
            | Consul.Declined =>
                NotAbleToCreateResolver (apexName canary) (Namespace canary)
            | _ => ResolverCreationFailure (apexName canary) (Namespace canary)
                     Unavailable
            end) ∧
  Consul.entries w' = Consul.entries w ∧
  (Consul.ConfigGet ServiceSplitter (apexName canary) ∉ reconcileCalls canary w) ∧
  writes ServiceSplitter (Consul.journal w') = writes ServiceSplitter (Consul.journal w).
Proof.
  intros Hres. rewrite Reconcile_spec.
  unfold reconcileResult, reconciledEntries, reconcileCalls.
  cbn [Consul.entries Consul.journal].
  destruct (Consul.behaviour w (Consul.Set_ ServiceResolver)); [contradiction|..].
  all: repeat split; try reflexivity.
  all: try (rewrite writes_app;
            destruct (Consul.behaviour w Consul.Datacenters); cbn;
            rewrite app_nil_r; reflexivity).
  all: destruct (Consul.behaviour w Consul.Datacenters); cbn [app];
    rewrite ?elem_of_cons, elem_of_nil; intros H; intuition discriminate.
Qed.

(** X13.  There is no undo: when the resolver was written and the write of
    the first split then fails on the way, [Reconcile] returns "Not able
    to set service splitter" and the agent keeps the resolver it was just
    given, without a split beside it. *)
Theorem Reconcile_keeps_the_resolver_on_failure (w : Consul.t) :
  Consul.behaviour w (Consul.Set_ ServiceResolver) = Consul.Served →
  Consul.behaviour w (Consul.Set_ ServiceSplitter) = Consul.Failed →
  splitFound canary w = false →
  let '(e, w') := Reconcile canary w in
  e = Some (NotAbleToSetSplitter (apexName canary) (Namespace canary) Unavailable) ∧
  Consul.entries w' !! resolverKey canary = Some (reconciledResolver canary w) ∧
  Consul.entries w' !! splitterKey canary = Consul.entries w !! splitterKey canary.
Proof.
  intros Hres Hspl Hfound. rewrite Reconcile_spec.
  unfold reconcileResult, reconciledEntries. rewrite Hres, Hspl, Hfound.
  cbn [Consul.entries]. split; [reflexivity|]. split.
  - apply lookup_insert_eq.
  - apply lookup_insert_ne. discriminate.
Qed.

(** X14.  The resolver is upserted: whenever the agent serves its write,
    the entry held under the resolver kind and the apex name after
    [Reconcile] is the resolver just built -- named after the apex, with
    [primary] as default subset -- whatever was held there before and
    whatever becomes of the split. *)
Theorem Reconcile_replaces_the_resolver (w : Consul.t) :
  Consul.behaviour w (Consul.Set_ ServiceResolver) = Consul.Served →
  ∃ r,
    Consul.entries (Reconcile canary w).2 !! resolverKey canary = Some (Resolver r) ∧
    Resolver r = reconciledResolver canary w ∧
    ServiceResolverConfigEntry.Name r = apexName canary ∧
    ServiceResolverConfigEntry.DefaultSubset r = "primary".
Proof.
  intros Hres. eexists. split; [|repeat split].
  rewrite Reconcile_spec. unfold reconciledEntries. rewrite Hres.
  cbn [Consul.entries snd].
  destruct (splitFound canary w); [apply lookup_insert_eq|].
  destruct (Consul.behaviour w (Consul.Set_ ServiceSplitter));
    rewrite ?(lookup_insert_ne _ (splitterKey canary)) by discriminate;
    apply lookup_insert_eq.
Qed.

(** X15.  [Reconcile] changes at most two entries of the agent, the
    resolver and the split of its target: every entry under another kind
    or another name is as it was. *)
Theorem Reconcile_touches_two_entries (w : Consul.t) (k : string * string) :
  k ≠ resolverKey canary → k ≠ splitterKey canary →
  Consul.entries (Reconcile canary w).2 !! k = Consul.entries w !! k.
Proof.
  intros Hr Hs. rewrite Reconcile_spec. unfold reconciledEntries.
  cbn [Consul.entries snd].
  destruct (Consul.behaviour w (Consul.Set_ ServiceResolver)); try reflexivity.
  destruct (splitFound canary w);
    [|destruct (Consul.behaviour w (Consul.Set_ ServiceSplitter))];
    rewrite ?(lookup_insert_ne _ (splitterKey canary)) by congruence;
    apply lookup_insert_ne; congruence.
Qed.

Lemma reconciledResolver_again (w w' : Consul.t) :
  Consul.behaviour w' = Consul.behaviour w →
  Consul.datacenters w' = Consul.datacenters w →
  reconciledResolver canary w' = reconciledResolver canary w.
Proof.
  intros Hb Hd. unfold reconciledResolver, discovered. rewrite Hb, Hd. reflexivity.
Qed.

(** X16.  [Reconcile] is idempotent on an agent that answers the second
    time as it answered the first: a [Reconcile] on an agent that holds
    the entries the first left, has the catalog the first saw and answers
    each kind of call as the first was answered returns what the first
    returned and leaves the entries as they are. *)
Theorem Reconcile_twice (w later : Consul.t) :
  Consul.entries later = Consul.entries (Reconcile canary w).2 →
  Consul.datacenters later = Consul.datacenters w →
  (∀ o, Consul.behaviour later o = Consul.behaviour w o) →
  (Reconcile canary later).1 = (Reconcile canary w).1 ∧
  Consul.entries (Reconcile canary later).2 = Consul.entries later.
Proof.
  intros He Hd Hb. rewrite (Reconcile_spec w) in He |- *.
  rewrite (Reconcile_spec later). cbn [fst snd Consul.entries] in *.
  assert (Hr : reconciledResolver canary later = reconciledResolver canary w).
  { unfold reconciledResolver, discovered. rewrite Hb, Hd. reflexivity. }
  unfold reconcileResult, reconciledEntries, splitFound. rewrite Hr, !Hb, He.
  unfold reconciledEntries, splitFound.
  destruct (Consul.behaviour w (Consul.Set_ ServiceResolver)); [|split; reflexivity..].
  destruct (Consul.behaviour w (Consul.Get ServiceSplitter)) eqn:Hget;
    [destruct (Consul.entries w !! splitterKey canary) eqn:Hs|..];
    destruct (Consul.behaviour w (Consul.Set_ ServiceSplitter)) eqn:Hspl.
  all: rewrite ?lookup_insert_eq, ?(lookup_insert_ne _ (resolverKey canary)) by discriminate.
  all: rewrite ?lookup_insert_eq, ?Hs.
  all: split; [reflexivity|].
  all: rewrite ?(insert_insert_ne _ (resolverKey canary) (splitterKey canary))
         by discriminate.
  all: rewrite ?insert_insert_eq; reflexivity.
Qed.

(** X17.  After [Reconcile] on an agent that holds no split for the target
    and serves the writes and the read, [GetRoutes] returns
    [(100, 0, false)] without error: all traffic on the primary. *)
Theorem Reconcile_then_GetRoutes (w : Consul.t) :
  Consul.behaviour w (Consul.Set_ ServiceResolver) = Consul.Served →
  Consul.behaviour w (Consul.Set_ ServiceSplitter) = Consul.Served →
  Consul.behaviour w (Consul.Get ServiceSplitter) = Consul.Served →
  Consul.entries w !! splitterKey canary = None →
  (GetRoutes canary (Reconcile canary w).2).1 =
    {| primaryWeight := 100; canaryWeight := 0; mirrored := false; err := None |}.
Proof.
  intros Hres Hspl Hget Hnone. rewrite Reconcile_spec. cbn [snd].
  rewrite (GetRoutes_served canary
             {| ServiceSplitterConfigEntry.Kind := ServiceSplitter;
                ServiceSplitterConfigEntry.Name := apexName canary;
                ServiceSplitterConfigEntry.Splits := [split canary "primary" 100] |}).
  - vm_compute. reflexivity.
  - exact Hget.
  - cbn [Consul.entries]. unfold reconciledEntries, splitFound.
    rewrite Hres, Hget, Hnone, Hspl. apply lookup_insert_eq.
Qed.

(** X18.  [Reconcile] does not reset established weights: on an agent that
    serves the write and the read of the split, [GetRoutes] after
    [SetRoutes(p, q, m)] and a [Reconcile] returns the weights set (for
    weights below 2^24 that are not both zero; a negative one reads as
    zero), whether or not the resolver step of [Reconcile] succeeds. *)
Theorem Reconcile_keeps_the_weights (p q : Z) (m : bool) (w : Consul.t) :
  Consul.behaviour w (Consul.Set_ ServiceSplitter) = Consul.Served →
  Consul.behaviour w (Consul.Get ServiceSplitter) = Consul.Served →
  p < 2 ^ 24 → q < 2 ^ 24 → 1 ≤ p ∨ 1 ≤ q →
  (GetRoutes canary (Reconcile canary (SetRoutes canary p q m w).2).2).1 =
    {| primaryWeight := Z.max 0 p; canaryWeight := Z.max 0 q;
       mirrored := false; err := None |}.
Proof.
  intros Hset Hget Hp Hq Hpq.
  rewrite <- (GetRoutes_after_SetRoutes canary p q m w Hset Hget Hp Hq Hpq).
  set (w1 := (SetRoutes canary p q m w).2).
  assert (Hb : Consul.behaviour w1 = Consul.behaviour w).
  { subst w1. rewrite SetRoutes_run. cbv zeta. rewrite Hset. reflexivity. }
  assert (Hs : is_Some (Consul.entries w1 !! splitterKey canary)).
  { subst w1. rewrite SetRoutes_run. cbv zeta. rewrite Hset. cbn [snd].
    rewrite (store_lookup (splitterOf canary _)). eauto. }
  destruct Hs as [e Hs].
  apply GetRoutes_depends; rewrite Reconcile_spec; [reflexivity|].
  cbn [snd Consul.entries]. unfold reconciledEntries, splitFound.
  rewrite Hb, Hget, Hs.
  destruct (Consul.behaviour w (Consul.Set_ ServiceResolver)); try exact Hs.
  rewrite lookup_insert_ne by discriminate. exact Hs.
Qed.

End Reconciling.

(** ** More on the observer *)

Section Observing.
Context {MetricTemplateModel E : Type}.
Variable RenderQuery : string → MetricTemplateModel → E + string.
Context {client : providers.Interface E}.

(** X19.  When [GetRequestDuration] returns an error, the duration beside
    it is zero, and the error names the step that failed: "rendering
    query failed" around the renderer's error when the rendering failed,
    else "running query failed" around the client's. *)
Theorem GetRequestDuration_error model (e : observers.error E) :
  (observers.GetRequestDuration RenderQuery model).2 = Some e →
  (observers.GetRequestDuration RenderQuery model).1 = 0 ∧
  match RenderQuery (observers.index observers.connectQueries "request-duration") model with
  | inl cause => e = observers.RenderingQueryFailed cause
  | inr query =>
      ∃ cause, providers.RunQuery query = inl cause ∧
               e = observers.RunningQueryFailed cause
  end.
Proof.
  unfold observers.GetRequestDuration.
  destruct (RenderQuery _ model) as [cause|query]; cbn [fst snd].
  - intros [= <-]. split; reflexivity.
  - destruct (providers.RunQuery query) as [cause|value]; cbn [fst snd].
    + intros [= <-]. split; [reflexivity|]. exists cause. split; reflexivity.
    + discriminate.
Qed.

(** X20.  Within about 292 years the product does not overflow: for a
    scalar whose integer part [k] is at most 9 223 372 036 854 in
    magnitude, [GetRequestDuration] returns exactly [k] milliseconds,
    [k * 1 000 000] nanoseconds. *)
Theorem GetRequestDuration_whole_milliseconds model query value (k : Z) :
  RenderQuery (observers.index observers.connectQueries "request-duration") model
    = inr query →
  providers.RunQuery query = inr value →
  IEEE.trunc value = Some k →
  - 9223372036854 ≤ k ≤ 9223372036854 →
  observers.GetRequestDuration RenderQuery model = (k * 1000000, None).
Proof.
  intros Hrender Hrun Hk Hbound.
  rewrite (GetRequestDuration_ran RenderQuery model query value Hrender Hrun).
  unfold F64.to_int, IEEE.to_int. rewrite Hk.
  replace (Int64.in_range k) with true
    by (symmetry; unfold Int64.in_range, Int64.min_int, Int64.max_int;
        apply andb_true_intro; split; apply Z.leb_le; lia).
  unfold time.mul, Int64.wrap.
  change time.Millisecond with 1000000.
  f_equal. change (2 ^ 63) with 9223372036854775808.
  change (2 ^ 64) with 18446744073709551616.
  rewrite Z.mod_small by lia. lia.
Qed.

End Observing.

(** ** The further properties on concrete agents *)

Lemma GetRoutes_without_split_witness :
  (Consul.behaviour Demo.fresh (Consul.Get ServiceSplitter) = Consul.Served →
   Consul.entries Demo.fresh !! splitterKey Demo.canary = None) ∧
  (GetRoutes Demo.canary Demo.fresh).1 =
    {| primaryWeight := 0; canaryWeight := 0; mirrored := false;
       err := Some (SplitterNotFound "podinfo" "test"
                      (NoSuchEntry ServiceSplitter "podinfo")) |}.
Proof.
  split; [intros _; reflexivity|].
  apply (GetRoutes_without_split Demo.canary Demo.fresh). intros _. reflexivity.
Defined.

Lemma GetRoutes_wrong_type_witness :
  Consul.behaviour Cases.mistyped (Consul.Get ServiceSplitter) = Consul.Served ∧
  Consul.entries Cases.mistyped !! splitterKey Demo.canary =
    Some (Other ServiceSplitter "podinfo") ∧
  (GetRoutes Demo.canary Cases.mistyped).1 =
    {| primaryWeight := 0; canaryWeight := 0; mirrored := false;
       err := Some (BadSplitter "podinfo" "test") |}.
Proof.
  split; [reflexivity|]. split; [apply lookup_singleton_eq|].
  apply (GetRoutes_wrong_type Demo.canary Cases.mistyped (Other ServiceSplitter "podinfo")).
  - reflexivity.
  - apply lookup_singleton_eq.
  - discriminate.
Defined.

Lemma GetRoutes_last_entry_wins_witness :
  Consul.behaviour Cases.repeated (Consul.Get ServiceSplitter) = Consul.Served ∧
  Consul.entries Cases.repeated !! splitterKey Demo.canary =
    Some (splitterOf Demo.canary Cases.twice) ∧
  primaryWeight (GetRoutes Demo.canary Cases.repeated).1 = 80 ∧
  canaryWeight (GetRoutes Demo.canary Cases.repeated).1 = 20.
Proof.
  split; [reflexivity|]. split; [apply lookup_singleton_eq|].
  destruct (GetRoutes_last_entry_wins Demo.canary Cases.repeated
              {| ServiceSplitterConfigEntry.Kind := ServiceSplitter;
                 ServiceSplitterConfigEntry.Name := "podinfo";
                 ServiceSplitterConfigEntry.Splits := Cases.twice |}
              eq_refl (lookup_singleton_eq _ _)) as [Hp Hc].
  split; [rewrite Hp | rewrite Hc]; vm_compute; reflexivity.
Defined.

Lemma GetRoutes_fractions_are_no_routes_witness :
  Consul.behaviour Cases.fractional (Consul.Get ServiceSplitter) = Consul.Served ∧
  Consul.entries Cases.fractional !! splitterKey Demo.canary =
    Some (splitterOf Demo.canary Cases.halves) ∧
  (GetRoutes Demo.canary Cases.fractional).1 =
    {| primaryWeight := 0; canaryWeight := 0; mirrored := false;
       err := Some (NoRoutes "podinfo" "test") |}.
Proof.
  split; [reflexivity|]. split; [apply lookup_singleton_eq|].
  apply (GetRoutes_fractions_are_no_routes Demo.canary Cases.fractional
           {| ServiceSplitterConfigEntry.Kind := ServiceSplitter;
              ServiceSplitterConfigEntry.Name := "podinfo";
              ServiceSplitterConfigEntry.Splits := Cases.halves |}).
  - reflexivity.
  - apply lookup_singleton_eq.
  - intros sp Hin. unfold Cases.halves in Hin.
    apply elem_of_cons in Hin as [->|Hin];
      [|apply list_elem_of_singleton in Hin as ->]; vm_compute; reflexivity.
Defined.

Lemma SetRoutes_unserved_witness :
  Consul.behaviour Cases.unwritable (Consul.Set_ ServiceSplitter) ≠ Consul.Served ∧
  let '(e, w') := SetRoutes Demo.canary 70 30 false Cases.unwritable in
  Consul.entries w' = Consul.entries Cases.unwritable ∧
  e = Some (NotAbleToSetSplitter "podinfo" "test" Unavailable).
Proof.
  assert (H : Consul.behaviour Cases.unwritable (Consul.Set_ ServiceSplitter)
              ≠ Consul.Served) by discriminate.
  split; [exact H|].
  apply (SetRoutes_unserved Demo.canary 70 30 false Cases.unwritable H).
Defined.

Lemma SetRoutes_last_write_wins_witness :
  Consul.behaviour Demo.fresh (Consul.Set_ ServiceSplitter) = Consul.Served ∧
  Consul.entries
    (SetRoutes Demo.canary 80 20 false (SetRoutes Demo.canary 90 10 true Demo.fresh).2).2 =
  Consul.entries (SetRoutes Demo.canary 80 20 false Demo.fresh).2.
Proof.
  split; [reflexivity|].
  apply (SetRoutes_last_write_wins Demo.canary 80 20 90 10 false true Demo.fresh).
  reflexivity.
Defined.

Lemma SetRoutes_leaves_other_targets_witness :
  apexName Cases.other ≠ apexName Demo.canary ∧
  (GetRoutes Demo.canary (SetRoutes Cases.other 100 0 false Demo.halfway).2).1 =
    (GetRoutes Demo.canary Demo.halfway).1.
Proof.
  assert (H : apexName Cases.other ≠ apexName Demo.canary) by discriminate.
  split; [exact H|].
  apply (SetRoutes_leaves_other_targets Cases.other Demo.canary 100 0 false Demo.halfway H).
Defined.

Lemma SetRoutes_GetRoutes_round_trip_witness :
  Consul.behaviour Demo.fresh (Consul.Set_ ServiceSplitter) = Consul.Served ∧
  Consul.behaviour Demo.fresh (Consul.Get ServiceSplitter) = Consul.Served ∧
  16777215 < 2 ^ 24 ∧ -3 < 2 ^ 24 ∧ (1 ≤ 16777215 ∨ 1 ≤ -3) ∧
  (GetRoutes Demo.canary (SetRoutes Demo.canary 16777215 (-3) false Demo.fresh).2).1 =
    {| primaryWeight := 16777215; canaryWeight := 0; mirrored := false; err := None |}.
Proof.
  split; [reflexivity|]. split; [reflexivity|].
  split; [lia|]. split; [lia|]. split; [left; lia|].
  apply (SetRoutes_GetRoutes_round_trip Demo.canary 16777215 (-3) false Demo.fresh);
    [reflexivity | reflexivity | lia | lia | left; lia].
Defined.

Lemma Reconcile_stops_at_the_resolver_witness :
  Consul.behaviour Cases.unwritable (Consul.Set_ ServiceResolver) ≠ Consul.Served ∧
  let '(e, w') := Reconcile Demo.canary Cases.unwritable in
  e = Some (ResolverCreationFailure "podinfo" "test" Unavailable) ∧
  Consul.entries w' = Consul.entries Cases.unwritable ∧
  (Consul.ConfigGet ServiceSplitter "podinfo" ∉ reconcileCalls Demo.canary Cases.unwritable) ∧
  writes ServiceSplitter (Consul.journal w') =
    writes ServiceSplitter (Consul.journal Cases.unwritable).
Proof.
  assert (H : Consul.behaviour Cases.unwritable (Consul.Set_ ServiceResolver)
              ≠ Consul.Served) by discriminate.
  split; [exact H|].
  apply (Reconcile_stops_at_the_resolver Demo.canary Cases.unwritable H).
Defined.

Lemma Reconcile_keeps_the_resolver_on_failure_witness :
  Consul.behaviour Cases.resolvers_only (Consul.Set_ ServiceResolver) = Consul.Served ∧
  Consul.behaviour Cases.resolvers_only (Consul.Set_ ServiceSplitter) = Consul.Failed ∧
  splitFound Demo.canary Cases.resolvers_only = false ∧
  let '(e, w') := Reconcile Demo.canary Cases.resolvers_only in
  e = Some (NotAbleToSetSplitter "podinfo" "test" Unavailable) ∧
  Consul.entries w' !! resolverKey Demo.canary =
    Some (reconciledResolver Demo.canary Cases.resolvers_only) ∧
  Consul.entries w' !! splitterKey Demo.canary = None.
Proof.
  split; [reflexivity|]. split; [reflexivity|]. split; [reflexivity|].
  apply (Reconcile_keeps_the_resolver_on_failure Demo.canary Cases.resolvers_only);
    reflexivity.
Defined.

Lemma Reconcile_replaces_the_resolver_witness :
  Consul.behaviour Demo.fresh (Consul.Set_ ServiceResolver) = Consul.Served ∧
  ∃ r,
    Consul.entries (Reconcile Demo.canary Demo.fresh).2 !! resolverKey Demo.canary
      = Some (Resolver r) ∧
    Resolver r = reconciledResolver Demo.canary Demo.fresh ∧
    ServiceResolverConfigEntry.Name r = "podinfo" ∧
    ServiceResolverConfigEntry.DefaultSubset r = "primary".
Proof.
  split; [reflexivity|].
  apply (Reconcile_replaces_the_resolver Demo.canary Demo.fresh). reflexivity.
Defined.

Lemma Reconcile_touches_two_entries_witness :
  ("service-defaults", "podinfo") ≠ resolverKey Demo.canary ∧
  ("service-defaults", "podinfo") ≠ splitterKey Demo.canary ∧
  Consul.entries (Reconcile Demo.canary Demo.halfway).2 !! ("service-defaults", "podinfo") =
    Consul.entries Demo.halfway !! ("service-defaults", "podinfo").
Proof.
  assert (H1 : ("service-defaults", "podinfo") ≠ resolverKey Demo.canary) by discriminate.
  assert (H2 : ("service-defaults", "podinfo") ≠ splitterKey Demo.canary) by discriminate.
  split; [exact H1|]. split; [exact H2|].
  apply (Reconcile_touches_two_entries Demo.canary Demo.halfway _ H1 H2).
Defined.

Lemma Reconcile_then_GetRoutes_witness :
  Consul.behaviour Demo.fresh (Consul.Set_ ServiceResolver) = Consul.Served ∧
  Consul.behaviour Demo.fresh (Consul.Set_ ServiceSplitter) = Consul.Served ∧
  Consul.behaviour Demo.fresh (Consul.Get ServiceSplitter) = Consul.Served ∧
  Consul.entries Demo.fresh !! splitterKey Demo.canary = None ∧
  (GetRoutes Demo.canary (Reconcile Demo.canary Demo.fresh).2).1 =
    {| primaryWeight := 100; canaryWeight := 0; mirrored := false; err := None |}.
Proof.
  split; [reflexivity|]. split; [reflexivity|]. split; [reflexivity|].
  split; [reflexivity|].
  apply (Reconcile_then_GetRoutes Demo.canary Demo.fresh); reflexivity.
Defined.

Lemma Reconcile_keeps_the_weights_witness :
  Consul.behaviour Demo.fresh (Consul.Set_ ServiceSplitter) = Consul.Served ∧
  Consul.behaviour Demo.fresh (Consul.Get ServiceSplitter) = Consul.Served ∧
  60 < 2 ^ 24 ∧ 40 < 2 ^ 24 ∧ (1 ≤ 60 ∨ 1 ≤ 40) ∧
  (GetRoutes Demo.canary
     (Reconcile Demo.canary (SetRoutes Demo.canary 60 40 false Demo.fresh).2).2).1 =
    {| primaryWeight := 60; canaryWeight := 40; mirrored := false; err := None |}.
Proof.
  split; [reflexivity|]. split; [reflexivity|].
  split; [lia|]. split; [lia|]. split; [left; lia|].
  apply (Reconcile_keeps_the_weights Demo.canary 60 40 false Demo.fresh);
    [reflexivity | reflexivity | lia | lia | left; lia].
Defined.

Lemma GetRequestDuration_error_witness :
  ((observers.GetRequestDuration Demo.verbatim (client := Cases.unreachable) tt).2 =
     Some (observers.RunningQueryFailed tt) ∧
   (observers.GetRequestDuration Demo.verbatim (client := Cases.unreachable) tt).1 = 0) ∧
  ((observers.GetRequestDuration Cases.unrenderable
      (client := Demo.answering (F64.of_int 250)) tt).2 =
     Some (observers.RenderingQueryFailed tt) ∧
   (observers.GetRequestDuration Cases.unrenderable
      (client := Demo.answering (F64.of_int 250)) tt).1 = 0).
Proof.
  split; (split; [reflexivity|]).
  - apply (GetRequestDuration_error Demo.verbatim (client := Cases.unreachable) tt
             (observers.RunningQueryFailed tt)).
    reflexivity.
  - apply (GetRequestDuration_error Cases.unrenderable
             (client := Demo.answering (F64.of_int 250)) tt
             (observers.RenderingQueryFailed tt)).
    reflexivity.
Defined.

Lemma GetRequestDuration_whole_milliseconds_witness :
  IEEE.trunc (F64.of_ratio (-6003) 4) = Some (-1500) ∧
  - 9223372036854 ≤ -1500 ≤ 9223372036854 ∧
  observers.GetRequestDuration Demo.verbatim
    (client := Demo.answering (F64.of_ratio (-6003) 4)) tt = (-1500000000, None).
Proof.
  split; [vm_compute; reflexivity|]. split; [lia|].
  apply (GetRequestDuration_whole_milliseconds Demo.verbatim
           (client := Demo.answering (F64.of_ratio (-6003) 4)) tt
           (observers.index observers.connectQueries "request-duration")
           (F64.of_ratio (-6003) 4) (-1500)).
  - reflexivity.
  - reflexivity.
  - vm_compute. reflexivity.
  - lia.
Defined.

(** ** Where two claims fail as stated *)




Lemma Reconcile_twice_witness :
  let later :=
    {| Consul.entries := Consul.entries (Reconcile Demo.canary Demo.fresh).2;
       Consul.datacenters := Consul.datacenters Demo.fresh;
       Consul.behaviour := Consul.behaviour Demo.fresh;
       Consul.journal := [] |} in
  Consul.entries later = Consul.entries (Reconcile Demo.canary Demo.fresh).2 ∧
  Consul.datacenters later = Consul.datacenters Demo.fresh ∧
  (∀ o, Consul.behaviour later o = Consul.behaviour Demo.fresh o) ∧
  (Reconcile Demo.canary Demo.fresh).1 = None ∧
  (Reconcile Demo.canary later).1 = (Reconcile Demo.canary Demo.fresh).1 ∧
  Consul.entries (Reconcile Demo.canary later).2 = Consul.entries later.
Proof.
  cbv zeta. split; [reflexivity|]. split; [reflexivity|].
  split; [intros o; reflexivity|].
  split; [apply Reconcile_succeeds; reflexivity|].
  apply (Reconcile_twice Demo.canary Demo.fresh); [reflexivity | reflexivity |].
  intros o. reflexivity.
Defined.
